(** * Weekly training-status derivation of the fitness-coaching app

    Shallow embedding of the two screens that derive a week of day entries
    from persisted training sessions:

    - [app/training-calendar.tsx]: [getWeekDates], [loadWeeklySchedule],
      [calculateWeeklyStats] (module [Calendar]);
    - the coaching dashboard: [loadWeeklyWorkouts] (module [Dashboard]).

    JavaScript [Date] objects are represented by their time value, an integer
    number of milliseconds since the epoch, and the [Date] methods the screens
    call follow the ECMAScript definitions (module [JSDate]).  Local time is
    UTC plus the offset of a time zone, which changes at the zone's
    transitions (daylight saving time); a date-time string that does not
    parse gives an Invalid Date; the bound on time values is outside the
    model.  The wall clock read by [new Date()] is an explicit argument
    [now]. *)

From Stdlib Require Import ZArith List Ascii String Bool Lia QArith Qround Qabs
  DecimalString Uint63 Floats.
Import ListNotations.

Local Open Scope string_scope.
Local Open Scope list_scope.
Local Open Scope Z_scope.

(** ** ECMAScript date arithmetic *)

Module JSDate.

Definition msPerSecond : Z := 1000.
Definition msPerMinute : Z := 60000.
Definition msPerHour : Z := 3600000.
Definition msPerDay : Z := 86400000.

Definition Day (t : Z) : Z := t / msPerDay.
Definition TimeWithinDay (t : Z) : Z := t mod msPerDay.

Definition isLeap (y : Z) : bool :=
  (y mod 4 =? 0) && (negb (y mod 100 =? 0) || (y mod 400 =? 0)).

Definition DaysInYear (y : Z) : Z := if isLeap y then 366 else 365.

Definition DayFromYear (y : Z) : Z :=
  365 * (y - 1970) + (y - 1969) / 4 - (y - 1901) / 100 + (y - 1601) / 400.

Definition TimeFromYear (y : Z) : Z := msPerDay * DayFromYear y.

(** The largest [y] with [TimeFromYear y <= t]: an estimate from the mean
    length of a Gregorian year, corrected by at most one year. *)
Definition YearFromTime (t : Z) : Z :=
  let d := Day t in
  let y := 1970 + (400 * d) / 146097 in
  if d <? DayFromYear y then y - 1
  else if DayFromYear (y + 1) <=? d then y + 1
  else y.

Definition InLeapYear (t : Z) : Z := if isLeap (YearFromTime t) then 1 else 0.

Definition DayWithinYear (t : Z) : Z := Day t - DayFromYear (YearFromTime t).

(** Number of days of the year before month [m] (0 = January), [leap] being
    1 in a leap year and 0 otherwise. *)
Definition monthStart (m leap : Z) : Z :=
  if m =? 0 then 0
  else if m =? 1 then 31
  else if m =? 2 then 59 + leap
  else if m =? 3 then 90 + leap
  else if m =? 4 then 120 + leap
  else if m =? 5 then 151 + leap
  else if m =? 6 then 181 + leap
  else if m =? 7 then 212 + leap
  else if m =? 8 then 243 + leap
  else if m =? 9 then 273 + leap
  else if m =? 10 then 304 + leap
  else 334 + leap.

Definition MonthFromTime (t : Z) : Z :=
  let d := DayWithinYear t in
  let l := InLeapYear t in
  if d <? 31 then 0
  else if d <? 59 + l then 1
  else if d <? 90 + l then 2
  else if d <? 120 + l then 3
  else if d <? 151 + l then 4
  else if d <? 181 + l then 5
  else if d <? 212 + l then 6
  else if d <? 243 + l then 7
  else if d <? 273 + l then 8
  else if d <? 304 + l then 9
  else if d <? 334 + l then 10
  else 11.

Definition DateFromTime (t : Z) : Z :=
  DayWithinYear t - monthStart (MonthFromTime t) (InLeapYear t) + 1.

Definition WeekDay (t : Z) : Z := (Day t + 4) mod 7.

Definition MakeTime (hour min sec ms : Z) : Z :=
  hour * msPerHour + min * msPerMinute + sec * msPerSecond + ms.

Definition MakeDay (year month date : Z) : Z :=
  let ym := year + month / 12 in
  let mn := month mod 12 in
  DayFromYear ym + monthStart mn (if isLeap ym then 1 else 0) + date - 1.

Definition MakeDate (day time : Z) : Z := day * msPerDay + time.

(** A calendar date, the value a string ["YYYY-MM-DD"] denotes
    ([month] is 1..12). *)
Record CalendarDate : Type := mkDate { year : Z; month : Z; day : Z }.

Definition CalendarDate_eqb (a b : CalendarDate) : bool :=
  (year a =? year b) && (month a =? month b) && (day a =? day b).

(** A clock time, the value a string ["HH:MM:SS"] denotes. *)
Record ClockTime : Type := mkTime { hour : Z; minute : Z; second : Z }.

Definition midnight : ClockTime := mkTime 0 0 0.

Definition daysInMonth (y m : Z) : Z :=
  if m =? 2 then (if isLeap y then 29 else 28)
  else if (m =? 4) || (m =? 6) || (m =? 9) || (m =? 11) then 30
  else 31.

(** A date of the calendar: what a well-formed ["YYYY-MM-DD"] denotes. *)
Definition validDate (d : CalendarDate) : bool :=
  (1 <=? month d) && (month d <=? 12)
  && (1 <=? day d) && (day d <=? daysInMonth (year d) (month d)).

(** [d.toISOString().split('T')[0]]: the calendar date of [t] in UTC. *)
Definition toISODate (t : Z) : CalendarDate :=
  mkDate (YearFromTime t) (MonthFromTime t + 1) (DateFromTime t).

(** [new Date("YYYY-MM-DD")]: a date-only string is UTC midnight. *)
Definition parseDateOnly (d : CalendarDate) : Z :=
  MakeDate (MakeDay (year d) (month d - 1) (day d)) 0.

(** A date string as V8 reads it: the month is 1..12 and the day 1..31 (a
    day past the end of its month runs into the next month); any other
    string gives an Invalid Date. *)
Definition parses (d : CalendarDate) : bool :=
  (1 <=? month d) && (month d <=? 12) && (1 <=? day d) && (day d <=? 31).

(** A clock string that parses: 00:00:00 to 23:59:59, and 24:00:00. *)
Definition validClock (c : ClockTime) : bool :=
  ((0 <=? hour c) && (hour c <=? 23) && (0 <=? minute c) && (minute c <=? 59)
   && (0 <=? second c) && (second c <=? 59))
  || ((hour c =? 24) && (minute c =? 0) && (second c =? 0)).

(** [a < b] between the time value of a [Date] and a time value, [None]
    being the time value [NaN] of an Invalid Date: a comparison with [NaN]
    is false. *)
Definition lt (a : option Z) (b : Z) : bool :=
  match a with
  | Some t => t <? b
  | None => false
  end.

(** A time zone: the offset of local time from UTC, in milliseconds, in
    force before the first transition, and the transitions in the order of
    time, each with the time value from which its offset is in force.
    Daylight saving time is two transitions a year. *)
Record TimeZone : Type := mkZone {
  initialOffset : Z;
  transitions : list (Z * Z)
}.

(** A zone that keeps one offset. *)
Definition fixedOffset (offset : Z) : TimeZone := mkZone offset [].

(** [LocalTZA(t, true)]: the offset in force at the time value [t],
    [offset] being in force before the transitions [rest]. *)
Fixpoint offsetAt (offset : Z) (rest : list (Z * Z)) (t : Z) : Z :=
  match rest with
  | [] => offset
  | (instant, next) :: rest' =>
      if t <? instant then offset else offsetAt next rest' t
  end.

(** [LocalTZA(t, false)]: the offset by which the local time [t] is read.
    A local time that a transition repeats or skips is read with the offset
    before the transition. *)
Fixpoint offsetOfLocal (offset : Z) (rest : list (Z * Z)) (t : Z) : Z :=
  match rest with
  | [] => offset
  | (instant, next) :: rest' =>
      if t - offset <? instant then offset
      else if instant <=? t - next then offsetOfLocal next rest' t
      else offset
  end.

Section LocalTime.

(** The time zone of the device. *)
Variable LocalTZA : TimeZone.

Definition LocalTime (t : Z) : Z :=
  t + offsetAt (initialOffset LocalTZA) (transitions LocalTZA) t.
Definition UTC (t : Z) : Z :=
  t - offsetOfLocal (initialOffset LocalTZA) (transitions LocalTZA) t.

Definition getDay (t : Z) : Z := WeekDay (LocalTime t).
Definition getDate (t : Z) : Z := DateFromTime (LocalTime t).

Definition setDate (t dt : Z) : Z :=
  let l := LocalTime t in
  UTC (MakeDate (MakeDay (YearFromTime l) (MonthFromTime l) dt)
                (TimeWithinDay l)).

(** [new Date("YYYY-MM-DDTHH:MM:SS")]: a date-time string without offset
    is local time; a string that does not parse gives an Invalid Date,
    [None]. *)
Definition parseDateTime (d : CalendarDate) (c : ClockTime) : option Z :=
  if parses d && validClock c then
    Some (UTC (MakeDate (MakeDay (year d) (month d - 1) (day d))
                        (MakeTime (hour c) (minute c) (second c) 0)))
  else None.

(** The calendar date of [t] in local time: [getFullYear], [getMonth] plus
    one, [getDate]. *)
Definition localDate (t : Z) : CalendarDate := toISODate (LocalTime t).

(** The local calendar day of [t], counted in days from 1970-01-01. *)
Definition localDay (t : Z) : Z := Day (LocalTime t).

End LocalTime.

(** The zone skips no whole calendar day: a local time, read as a time
    value and shown again, is on the calendar day it started on (it moves
    within the day when a transition skips it). *)
Definition keepsCalendarDay (z : TimeZone) : Prop :=
  forall t, Day (LocalTime z (UTC z t)) = Day t.

(** The zone keeps the offset [offset] on the time values from [lo] to
    [hi]: no transition is felt between them. *)
Definition steady (z : TimeZone) (offset lo hi : Z) : Prop :=
  forall t, lo <= t <= hi ->
            LocalTime z t = t + offset /\ UTC z (t + offset) = t.

End JSDate.

(** A number of milliseconds is read as the zone of that constant offset. *)
Coercion JSDate.fixedOffset : Z >-> JSDate.TimeZone.

(** ** Persisted session records *)

Record Template : Type := mkTemplate { tpl_id : string; tpl_name : string }.

(** Modelled from the spec: the [TrainingSession] row type, declared in
    [types/workout] and [lib/database], which are not part of the sources at
    hand.  The fields are the ones the two screens read; an absent ([null]
    or [undefined]) field is [None].  A [scheduled_date] is a calendar date
    and a [scheduled_time] a clock time, as the data model has them. *)
Module TrainingSession.

Record t : Type := mk {
  id : string;
  scheduled_date : option JSDate.CalendarDate;
  scheduled_time : option JSDate.ClockTime;
  status : string;
  template : option Template;
  template_id : option string;
  session_type : option string;
  type : option string;
  duration_minutes : option Z;
  notes : option string
}.

End TrainingSession.

(** [a || d] on an optional string: the empty string is falsy too. *)
Definition orElse (a : option string) (d : string) : string :=
  match a with
  | Some s => if String.eqb s "" then d else s
  | None => d
  end.

(** JavaScript division on exact numbers: [None] stands for a result that
    is not a finite number ([NaN] or an infinity).  The rounding of the
    binary representation is that of [Number] below. *)
Definition js_div (a b : Q) : option Q :=
  if Qeq_bool b 0 then None else Some (a / b)%Q.

(** JavaScript numbers as they are, IEEE 754 binary64 values. *)
Module Number.

(** The number of a count, an integer from 0 to 2^53: it is exact. *)
Definition of_Z (n : Z) : float := PrimFloat.of_uint63 (Uint63.of_Z n).

(** The exact value of a number; [NaN] and the infinities have none. *)
Definition valueOf (x : float) : option Q :=
  match Prim2SF x with
  | S754_zero _ => Some (inject_Z 0)
  | S754_finite sign m e =>
      Some ((if sign then inject_Z (Z.neg m) else inject_Z (Z.pos m)) * Qpower 2 e)%Q
  | S754_infinity _ => None
  | S754_nan => None
  end.

End Number.

(** ** The training calendar screen *)

Module Calendar.

Import JSDate.

Record WeeklyWorkout : Type := mkWorkout {
  dayName : option string;
  dayNumber : Z;
  template : option Template;
  completed : bool;
  missed : bool;
  sessionId : option string;
  scheduledTime : option ClockTime;
  status : string;
  duration_minutes : option Z;
  notes : option string
}.

Record WeeklyStats : Type := mkStats {
  totalWorkouts : Z;
  completedWorkouts : Z;
  totalDuration : Z;
  completionRate : option Q
}.

Definition set_status (w : WeeklyWorkout) (st : string) : WeeklyWorkout :=
  mkWorkout (dayName w) (dayNumber w) (template w) (completed w) (missed w)
            (sessionId w) (scheduledTime w) st (duration_minutes w) (notes w).

Definition set_completed (w : WeeklyWorkout) (c : bool) : WeeklyWorkout :=
  mkWorkout (dayName w) (dayNumber w) (template w) c (missed w)
            (sessionId w) (scheduledTime w) (status w) (duration_minutes w)
            (notes w).

Definition dayNames : list string := ["M"; "T"; "W"; "T"; "F"; "S"; "S"].

(** [s => s.scheduled_date === dateString] *)
Definition onDate (dateString : CalendarDate) (s : TrainingSession.t) : bool :=
  match TrainingSession.scheduled_date s with
  | Some d => CalendarDate_eqb d dateString
  | None => false
  end.

Section Screen.

Variable LocalTZA : TimeZone.

(** The value of [new Date()] inside the derivation. *)
Variable now : Z.

(** The loop [for (let i = 0; i < 7; i++)] of [getWeekDates], from index
    [i] on; [fuel] bounds the number of iterations. *)
Fixpoint weekLoop (monday : Z) (i : Z) (fuel : nat) (week : list Z) : list Z :=
  match fuel with
  | O => week
  | S fuel' =>
      if i <? 7 then
        let date := setDate LocalTZA monday (getDate LocalTZA monday + i) in
        weekLoop monday (i + 1) fuel' (week ++ [date])
      else week
  end.

Definition getWeekDates (startDate : Z) : list Z :=
  let dayOfWeek := getDay LocalTZA startDate in
  let diff := if dayOfWeek =? 0 then -6 else 1 - dayOfWeek in
  let monday := setDate LocalTZA startDate (getDate LocalTZA startDate + diff) in
  weekLoop monday 0 7 [].

(** The body of the [forEach] callback for one date of the week. *)
Definition workoutOfDay (trainingSessions : list TrainingSession.t)
           (date : Z) (index : nat) : WeeklyWorkout :=
  let dateString := toISODate date in
  let dayNumber := getDate LocalTZA date in
  let session := find (onDate dateString) trainingSessions in
  let workoutSessionData :=
    mkWorkout
      (nth_error dayNames index)
      dayNumber
      (match session with
       | Some s =>
           match TrainingSession.template s with
           | Some t => Some (mkTemplate (tpl_id t) (tpl_name t))
           | None => None
           end
       | None => None
       end)
      false
      false
      (option_map TrainingSession.id session)
      (match session with Some s => TrainingSession.scheduled_time s | None => None end)
      "rest"
      (match session with Some s => TrainingSession.duration_minutes s | None => None end)
      (match session with Some s => TrainingSession.notes s | None => None end) in
  let sessionDateTime :=
    parseDateTime LocalTZA dateString
      (match session with
       | Some s =>
           match TrainingSession.scheduled_time s with
           | Some c => c
           | None => midnight
           end
       | None => midnight
       end) in
  match session with
  | Some s =>
      let w1 := set_status workoutSessionData (TrainingSession.status s) in
      let w2 := set_completed w1 (String.eqb (TrainingSession.status s) "completed") in
      if String.eqb (TrainingSession.status s) "scheduled" then
        if lt sessionDateTime now then set_status w2 "missed" else w2
      else if String.eqb (TrainingSession.status s) "no_show" then
        set_status w2 "missed"
      else w2
  | None => workoutSessionData
  end.

(** [weekDates.forEach((date, index) => { ...; weeklySchedule.push(...) })],
    from position [index] on, [weeklySchedule] being the entries pushed so
    far. *)
Fixpoint forEachDate (trainingSessions : list TrainingSession.t)
         (weekDates : list Z) (index : nat)
         (weeklySchedule : list WeeklyWorkout) : list WeeklyWorkout :=
  match weekDates with
  | [] => weeklySchedule
  | date :: rest =>
      forEachDate trainingSessions rest (S index)
                  (weeklySchedule ++ [workoutOfDay trainingSessions date index])
  end.

Definition weeklySchedule (weekDates : list Z)
           (trainingSessions : list TrainingSession.t) : list WeeklyWorkout :=
  forEachDate trainingSessions weekDates 0%nat [].

Definition countsAsWorkout (w : WeeklyWorkout) : bool :=
  match template w with Some _ => true | None => false end
  || negb (String.eqb (status w) "rest").

Definition isCompleted (w : WeeklyWorkout) : bool :=
  String.eqb (status w) "completed".

(** [w.duration_minutes || 0] *)
Definition durationOrZero (w : WeeklyWorkout) : Z :=
  match duration_minutes w with Some d => d | None => 0 end.

Definition calculateWeeklyStats (workouts : list WeeklyWorkout) : WeeklyStats :=
  let totalWorkouts := Z.of_nat (List.length (filter countsAsWorkout workouts)) in
  let completedWorkouts := Z.of_nat (List.length (filter isCompleted workouts)) in
  let totalDuration :=
    fold_left (fun sum w => sum + durationOrZero w)
              (filter isCompleted workouts) 0 in
  let completionRate :=
    if 0 <? totalWorkouts then
      match js_div (inject_Z completedWorkouts) (inject_Z totalWorkouts) with
      | Some r => Some (r * inject_Z 100)%Q
      | None => None
      end
    else Some (inject_Z 0) in
  mkStats totalWorkouts completedWorkouts totalDuration completionRate.

(** [completionRate] of [calculateWeeklyStats] on numbers as JavaScript has
    them: the quotient is rounded to binary64, and so is its product with
    100. *)
Definition completionRate64 (workouts : list WeeklyWorkout) : float :=
  let totalWorkouts := Z.of_nat (List.length (filter countsAsWorkout workouts)) in
  let completedWorkouts := Z.of_nat (List.length (filter isCompleted workouts)) in
  if 0 <? totalWorkouts then
    (Number.of_Z completedWorkouts / Number.of_Z totalWorkouts * 100)%float
  else 0%float.

(** The derivation proper: the part of [loadWeeklySchedule] that follows
    the fetch, as a function of the week and of the fetched sessions. *)
Definition deriveWeek (weekDates : list Z)
           (trainingSessions : list TrainingSession.t)
  : list WeeklyWorkout * WeeklyStats :=
  let ws := weeklySchedule weekDates trainingSessions in
  (ws, calculateWeeklyStats ws).

Definition loadWeeklySchedule (currentWeekStart : Z)
           (trainingSessions : list TrainingSession.t)
  : list WeeklyWorkout * WeeklyStats :=
  deriveWeek (getWeekDates currentWeekStart) trainingSessions.

End Screen.

End Calendar.

(** ** The coaching dashboard *)

Module Dashboard.

Import JSDate.

Record WeeklyWorkout : Type := mkWorkout {
  dayName : option string;
  dayNumber : Z;
  template : option Template;
  completed : bool;
  missed : bool;
  sessionId : option string;
  scheduledTime : option ClockTime
}.

Definition dayNames : list string := ["M"; "T"; "W"; "T"; "F"; "S"; "S"].

(** [sDate] in the callback of [trainingSessions.find]: the session's date,
    parsed and printed again; a session without a date gives the empty
    string, here [None].  This is the value for a stored date that parses;
    on one that does not, [raisesRangeError] below, [toISOString] raises. *)
Definition sDate (s : TrainingSession.t) : option CalendarDate :=
  match TrainingSession.scheduled_date s with
  | Some d => Some (toISODate (parseDateOnly d))
  | None => None
  end.

(** [s => sDate === dateString]; the empty string equals no [dateString]. *)
Definition onDate (dateString : CalendarDate) (s : TrainingSession.t) : bool :=
  match sDate s with
  | Some d => CalendarDate_eqb d dateString
  | None => false
  end.

(** [new Date(s.scheduled_date).toISOString()] raises a [RangeError] on a
    stored date that does not parse. *)
Definition raisesRangeError (s : TrainingSession.t) : bool :=
  match TrainingSession.scheduled_date s with
  | Some d => negb (parses d)
  | None => false
  end.

(** [trainingSessions.find] calls its callback on the sessions in order
    and stops at the first match: the search for [dateString] raises when a
    session that raises comes before every match. *)
Fixpoint findRaises (dateString : CalendarDate)
         (trainingSessions : list TrainingSession.t) : bool :=
  match trainingSessions with
  | [] => false
  | s :: rest =>
      if raisesRangeError s then true
      else if onDate dateString s then false
      else findRaises dateString rest
  end.

(** The template reference of a matched session. *)
Definition templateOf (workoutTemplates : list Template)
           (session : TrainingSession.t) : Template :=
  match TrainingSession.template_id session with
  | Some tid =>
      if String.eqb tid "" then
        mkTemplate (TrainingSession.id session)
                   (orElse (TrainingSession.session_type session)
                           (orElse (TrainingSession.type session) "Custom Session"))
      else
        match find (fun t => String.eqb (tpl_id t) tid) workoutTemplates with
        | Some templateData => mkTemplate (tpl_id templateData) (tpl_name templateData)
        | None => mkTemplate tid "Workout"
        end
  | None =>
      mkTemplate (TrainingSession.id session)
                 (orElse (TrainingSession.session_type session)
                         (orElse (TrainingSession.type session) "Custom Session"))
  end.

Section Screen.

Variable LocalTZA : TimeZone.

(** The value of [new Date()] inside the callback of [weekDates.map]. *)
Variable now : Z.

Variable workoutTemplates : list Template.

(** The loop [for (let i = 0; i < 7; i++)] that fills [weekDates], from
    index [i] on; [fuel] bounds the number of iterations. *)
Fixpoint weekLoop (monday : Z) (i : Z) (fuel : nat) (weekDates : list Z) : list Z :=
  match fuel with
  | O => weekDates
  | S fuel' =>
      if i <? 7 then
        let date := setDate LocalTZA monday (getDate LocalTZA monday + i) in
        weekLoop monday (i + 1) fuel' (weekDates ++ [date])
      else weekDates
  end.

(** The week of [today]: the opening of [loadWeeklyWorkouts]. *)
Definition weekDatesOf (today : Z) : list Z :=
  let currentDay := getDay LocalTZA today in
  let mondayOffset := if currentDay =? 0 then -6 else 1 - currentDay in
  let monday := setDate LocalTZA today (getDate LocalTZA today + mondayOffset) in
  weekLoop monday 0 7 [].

(** The callback of [weekDates.map]. *)
Definition workoutOfDay (trainingSessions : list TrainingSession.t)
           (date : Z) (index : nat) : WeeklyWorkout :=
  let dateString := toISODate date in
  let dayNumber := getDate LocalTZA date in
  let session := find (onDate dateString) trainingSessions in
  match session with
  | Some s =>
      let template := Some (templateOf workoutTemplates s) in
      let sessionId := Some (TrainingSession.id s) in
      let scheduledTime := TrainingSession.scheduled_time s in
      let st := TrainingSession.status s in
      if String.eqb st "completed" then
        mkWorkout (nth_error dayNames index) dayNumber template
                  true false sessionId scheduledTime
      else if String.eqb st "no_show" || String.eqb st "cancelled" then
        mkWorkout (nth_error dayNames index) dayNumber template
                  false true sessionId scheduledTime
      else
        let sessionDate := parseDateOnly dateString in
        if (sessionDate <? now) && String.eqb st "scheduled" then
          mkWorkout (nth_error dayNames index) dayNumber template
                    false true sessionId scheduledTime
        else
          mkWorkout (nth_error dayNames index) dayNumber template
                    false false sessionId scheduledTime
  | None =>
      mkWorkout (nth_error dayNames index) dayNumber None
                false false None None
  end.

(** [weekDates.map((date, index) => ...)] from position [index] on. *)
Fixpoint mapDates (trainingSessions : list TrainingSession.t)
         (weekDates : list Z) (index : nat) : list WeeklyWorkout :=
  match weekDates with
  | [] => []
  | date :: rest =>
      workoutOfDay trainingSessions date index
      :: mapDates trainingSessions rest (S index)
  end.

Definition weeklyData (weekDates : list Z)
           (trainingSessions : list TrainingSession.t) : list WeeklyWorkout :=
  mapDates trainingSessions weekDates 0%nat.

Definition loadWeeklyWorkouts (today : Z)
           (trainingSessions : list TrainingSession.t) : list WeeklyWorkout :=
  weeklyData (weekDatesOf today) trainingSessions.

End Screen.

End Dashboard.

(** ** Reference definitions, in the words of the specification *)

Module Spec.

Import JSDate.

(** The offset to Monday: -6 days when the weekday is Sunday, and
    [1 - weekday] otherwise (0 = Sunday .. 6 = Saturday). *)
Definition mondayOffset (weekday : Z) : Z :=
  if weekday =? 0 then -6 else 1 - weekday.

(** [x] is the first element of [l], in the order of [l], that matches. *)
Definition firstMatch {A : Type} (matches : A -> Prop) (l : list A) (x : A) : Prop :=
  exists before after,
    l = before ++ x :: after /\ matches x /\ forall y, In y before -> ~ matches y.

(** The session identifier of the entry of a date: set if and only if a
    session record's date matches the date, and then that of the first
    matching record. *)
Definition sessionIdOf (dateOf : TrainingSession.t -> option CalendarDate)
           (sessions : list TrainingSession.t) (date : CalendarDate)
           (sessionId : option string) : Prop :=
  (sessionId <> None <-> exists s, In s sessions /\ dateOf s = Some date)
  /\ (forall s, firstMatch (fun s => dateOf s = Some date) sessions s ->
                sessionId = Some (TrainingSession.id s)).

(** The fallback template reference of a session without a template: the
    session's own identifier and a session-type label or the literal
    "Custom Session". *)
Definition fallbackTemplate (s : TrainingSession.t) : Template :=
  mkTemplate (TrainingSession.id s)
    (match TrainingSession.session_type s, TrainingSession.type s with
     | Some label, _ => if String.eqb label "" then
                          match TrainingSession.type s with
                          | Some label' => if String.eqb label' "" then "Custom Session" else label'
                          | None => "Custom Session"
                          end
                        else label
     | None, Some label => if String.eqb label "" then "Custom Session" else label
     | None, None => "Custom Session"
     end).

(** The scheduled time of a session, 00:00:00 if absent. *)
Definition timeOrMidnight (s : TrainingSession.t) : ClockTime :=
  match TrainingSession.scheduled_time s with
  | Some c => c
  | None => midnight
  end.

(** Number of entries of [l] that satisfy [p]. *)
Fixpoint count {A : Type} (p : A -> bool) (l : list A) : Z :=
  match l with
  | [] => 0
  | x :: l' => (if p x then 1 else 0) + count p l'
  end.

(** Count where the template reference is present or the status is not
    [rest]. *)
Definition totalWorkouts (ws : list Calendar.WeeklyWorkout) : Z :=
  count (fun w => match Calendar.template w with
                  | Some _ => true
                  | None => negb (String.eqb (Calendar.status w) "rest")
                  end) ws.

(** Count where the status is [completed]. *)
Definition completedWorkouts (ws : list Calendar.WeeklyWorkout) : Z :=
  count (fun w => String.eqb (Calendar.status w) "completed") ws.

(** Sum of the duration, 0 if absent, over the entries with status
    [completed]. *)
Fixpoint totalDuration (ws : list Calendar.WeeklyWorkout) : Z :=
  match ws with
  | [] => 0
  | w :: ws' =>
      (if String.eqb (Calendar.status w) "completed"
       then match Calendar.duration_minutes w with Some d => d | None => 0 end
       else 0)
      + totalDuration ws'
  end.

(** [totalWorkouts = 0 ? 0 : 100 * completedWorkouts / totalWorkouts] *)
Definition completionRate (ws : list Calendar.WeeklyWorkout) : Q :=
  if totalWorkouts ws =? 0 then inject_Z 0
  else (inject_Z 100 * inject_Z (completedWorkouts ws) / inject_Z (totalWorkouts ws))%Q.

(** Each date of the window is the calendar day after the one before it. *)
Fixpoint consecutiveDays (week : list Z) : bool :=
  match week with
  | a :: (b :: _) as rest => (Day b =? Day a + 1) && consecutiveDays rest
  | _ => true
  end.

(** A well-formed week window: exactly 7 ascending consecutive dates. *)
Definition wellFormedWeek (week : list Z) : bool :=
  Nat.eqb (List.length week) 7 && consecutiveDays week.

Inductive Error : Type := InvalidArgument.

(** [deriveWeek] with the failure semantics the specification gives it: a
    malformed week window is an [InvalidArgument], fatal to the call. *)
Definition deriveWeek (LocalTZA : TimeZone) (now : Z) (week : list Z)
           (sessions : list TrainingSession.t)
  : Error + (list Calendar.WeeklyWorkout * Calendar.WeeklyStats) :=
  if wellFormedWeek week
  then inr (Calendar.deriveWeek LocalTZA now week sessions)
  else inl InvalidArgument.

End Spec.

(** ** Sample data *)

Module Samples.

Import JSDate.

(** Wednesday 2024-01-31, 10:30:00 UTC. *)
Definition wednesday : Z := 1706697000000.

(** Noon of the same day. *)
Definition noon : Z := 1706702400000.

Definition jan31 : CalendarDate := mkDate 2024 1 31.

Definition upperBody : Template := mkTemplate "tpl-7" "Upper body".

(** New York in 2024: five hours behind UTC, and four from 2024-03-10,
    07:00 UTC, to 2024-11-03, 06:00 UTC. *)
Definition newYork : TimeZone :=
  mkZone (-18000000) [(1710054000000, -14400000); (1730613600000, -18000000)].

(** London in 2024: UTC, and one hour ahead from 2024-03-31, 01:00 UTC, to
    2024-10-27, 01:00 UTC. *)
Definition london : TimeZone :=
  mkZone 0 [(1711846800000, 3600000); (1729990800000, 0)].

(** Apia at the end of 2011: ten hours behind UTC until 2011-12-30, 10:00
    UTC, and fourteen ahead from then on; Friday the 30th is skipped. *)
Definition apia : TimeZone := mkZone (-36000000) [(1325239200000, 50400000)].

(** Kolkata: five and a half hours ahead of UTC all year. *)
Definition kolkata : Z := 19800000.

(** Wednesday 2024-03-06, 12:00 in New York: the week ends on the day the
    clocks go forward. *)
Definition marchWednesday : Z := 1709744400000.

(** Saturday 2024-03-09, 19:30 in New York, 00:30 UTC of the day after. *)
Definition marchSaturday : Z := 1710030600000.

(** Monday 2024-02-05, 04:30 in Kolkata, 23:00 UTC of the day before. *)
Definition februaryMonday : Z := 1707087600000.

(** A session without time or template on the given date. *)
Definition sessionOn (id : string) (date : CalendarDate) (status : string)
  : TrainingSession.t :=
  TrainingSession.mk id (Some date) None status None None None None None None.

(** A session on the Sunday before the week of 2024-02-05 and one on the
    Sunday of that week. *)
Definition februarySessions : list TrainingSession.t :=
  [sessionOn "feb04" (mkDate 2024 2 4) "scheduled";
   sessionOn "feb11" (mkDate 2024 2 11) "scheduled"].

(** Three sessions in the week of 2024-01-31: one completed, two still to
    come. *)
Definition threeSessions : list TrainingSession.t :=
  [sessionOn "a" (mkDate 2024 1 29) "completed";
   sessionOn "b" (mkDate 2024 2 2) "scheduled";
   sessionOn "c" (mkDate 2024 2 3) "scheduled"].

(** The entries of that week, derived at noon of 2024-01-31. *)
Definition threeSessionWeek : list Calendar.WeeklyWorkout :=
  fst (Calendar.loadWeeklySchedule 0 noon wednesday threeSessions).

(** A session on Sunday 2024-03-10. *)
Definition marchSessions : list TrainingSession.t :=
  [sessionOn "mar10" (mkDate 2024 3 10) "scheduled"].

(** A session on 2024-01-31 at 18:00:00 with the given status, without a
    template. *)
Definition sessionWith (status : string) : TrainingSession.t :=
  TrainingSession.mk "s1" (Some jan31) (Some (mkTime 18 0 0)) status
                     None None None None (Some 45) (Some "legs").

(** The same session with a template attached. *)
Definition templatedWith (status : string) : TrainingSession.t :=
  TrainingSession.mk "s2" (Some jan31) (Some (mkTime 18 0 0)) status
                     (Some upperBody) (Some "tpl-7") None None (Some 45)
                     (Some "push").

End Samples.

(** ** What the screens do with the derived week *)

(** What a handler does besides updating the state of its screen: nothing,
    an alert, a navigation, or a [TypeError] raised by reading a property of
    [undefined]. *)
Inductive Effect : Type :=
| NoEffect
| Alert (title message : string)
| Push (route : string)
| TypeError.

(** Truthiness of an optional string: absent and empty are falsy. *)
Definition truthy (a : option string) : bool :=
  match a with
  | Some s => negb (String.eqb s "")
  | None => false
  end.

(** An optional string inside a template literal. *)
Definition interpolate (a : option string) : string :=
  match a with
  | Some s => s
  | None => "undefined"
  end.

(** [n.toString()] of an integer. *)
Definition toString (n : Z) : string := NilZero.string_of_int (Z.to_int n).

(** [s.padStart(targetLength, pad)] with a pad of one character. *)
Definition padStart (targetLength : nat) (pad : Ascii.ascii) (s : string) : string :=
  (fix fill (k : nat) : string :=
     match k with
     | O => s
     | S k' => String pad (fill k')
     end) (targetLength - String.length s)%nat.

(** [Math.round] of a number: the nearest integer, halves going up; a value
    that is not a number stays so. *)
Definition Math_round (x : option Q) : option Z :=
  match x with
  | Some q => Some (Qfloor (q + (1 # 2)))
  | None => None
  end.

(** A session whose stored date, if any, is a date of the calendar. *)
Definition validSession (s : TrainingSession.t) : Prop :=
  match TrainingSession.scheduled_date s with
  | Some d => JSDate.validDate d = true
  | None => True
  end.

(** The four stored statuses of the data model. *)
Definition storedStatuses : list string :=
  ["scheduled"; "completed"; "no_show"; "cancelled"].

(** The statuses the type of a calendar entry declares. *)
Definition dayStatuses : list string :=
  ["completed"; "missed"; "scheduled"; "rest"; "cancelled"].

Module CalendarView.

Import JSDate.

Inductive direction : Type := prev | next.

Definition handleRearrangeToggle (isRearrangeMode : bool) : bool * option nat :=
  (negb isRearrangeMode, None).

(** [handleWorkoutPress]: the new [selectedItem] and what else happens. *)
Definition handleWorkoutPress (weeklyWorkouts : list Calendar.WeeklyWorkout)
           (isRearrangeMode : bool) (selectedItem : option nat)
           (workout : Calendar.WeeklyWorkout) (index : nat)
  : option nat * Effect :=
  if isRearrangeMode then
    match selectedItem with
    | None => (Some index, NoEffect)
    | Some selected =>
        if Nat.eqb selected index then (None, NoEffect)
        else
          match nth_error weeklyWorkouts selected with
          | Some other =>
              (None,
               Alert "Rearrange"
                     ("Swap workout on " ++ interpolate (Calendar.dayName other)
                      ++ " with " ++ interpolate (Calendar.dayName workout)))
          | None => (selectedItem, TypeError)
          end
    end
  else if truthy (Calendar.sessionId workout) then
    if String.eqb (Calendar.status workout) "scheduled" then
      (selectedItem,
       Push ("/start-workout/" ++ interpolate (Calendar.sessionId workout)))
    else if String.eqb (Calendar.status workout) "completed"
            || String.eqb (Calendar.status workout) "missed"
            || String.eqb (Calendar.status workout) "cancelled" then
      (selectedItem,
       Push ("/workout-detail/" ++ interpolate (Calendar.sessionId workout)))
    else (selectedItem, NoEffect)
  else
    match Calendar.template workout with
    | Some t => (selectedItem, Push ("/todays-workout/" ++ tpl_id t))
    | None => (selectedItem, NoEffect)
    end.

(** A run of presses in rearrange mode, each on an entry of the week: the
    selection after the last one, and the effects in order. *)
Fixpoint pressAll (weeklyWorkouts : list Calendar.WeeklyWorkout)
         (selectedItem : option nat) (presses : list nat)
  : option nat * list Effect :=
  match presses with
  | [] => (selectedItem, [])
  | index :: rest =>
      match nth_error weeklyWorkouts index with
      | Some workout =>
          let (selected, effect) :=
            handleWorkoutPress weeklyWorkouts true selectedItem workout index in
          let (final, effects) := pressAll weeklyWorkouts selected rest in
          (final, effect :: effects)
      | None => pressAll weeklyWorkouts selectedItem rest
      end
  end.

(** [hasWorkout] of [renderWorkoutItem]. *)
Definition hasWorkout (workout : Calendar.WeeklyWorkout) : bool :=
  match Calendar.template workout with Some _ => true | None => false end
  || (negb (String.eqb (Calendar.status workout) "rest")
      && negb (String.eqb (Calendar.status workout) "cancelled")).

(** The name [renderWorkoutItem] shows for an entry. *)
Definition workoutName (workout : Calendar.WeeklyWorkout) : string :=
  if hasWorkout workout then
    match Calendar.template workout with
    | Some t => if String.eqb (tpl_name t) "" then "Training Session" else tpl_name t
    | None => "Training Session"
    end
  else if String.eqb (Calendar.status workout) "cancelled" then "Cancelled Session"
  else "Rest Day".

(** What the awaited session query gives: the rows, or a failure - a
    rejection, or a value [find] cannot be called on. *)
Inductive Fetched : Type :=
| Rows (trainingSessions : list TrainingSession.t)
| Rejected.

(** The success rate [renderWeeklyStats] shows before the percent sign. *)
Definition successRate (weeklyStats : Calendar.WeeklyStats) : option Z :=
  Math_round (Calendar.completionRate weeklyStats).

Section Screen.

Variable LocalTZA : TimeZone.

Definition navigateWeek (currentWeekStart : Z) (d : direction) : Z :=
  setDate LocalTZA currentWeekStart
          (getDate LocalTZA currentWeekStart
           + match d with next => 7 | prev => -7 end).

(** [today] is the value of [new Date()]. *)
Definition isCurrentWeek (today currentWeekStart : Z) : bool :=
  let weekDates := Calendar.getWeekDates LocalTZA currentWeekStart in
  let todayString := toISODate today in
  existsb (fun date => CalendarDate_eqb (toISODate date) todayString) weekDates.

(** [startDate] and [endDate] of [loadWeeklySchedule], the range asked of
    the session query; reading an entry the week does not have raises. *)
Definition queryRange (currentWeekStart : Z) : option (CalendarDate * CalendarDate) :=
  let weekDates := Calendar.getWeekDates LocalTZA currentWeekStart in
  match nth_error weekDates 0, nth_error weekDates 6 with
  | Some first, Some last => Some (toISODate first, toISODate last)
  | _, _ => None
  end.

(** The value of [new Date()] inside the derivation. *)
Variable now : Z.

(** [loadWeeklySchedule] as the screen runs it, from the guard on the
    profile to the [catch]: [userProfile] is the identifier of the profile,
    if one is loaded; [getClientTrainingSessions] is the session query;
    [shown] is the state [weeklyWorkouts], [weeklyStats] before the call.
    The result is that state after the call and what the user sees
    happen; the [loading] flag, set at the start and cleared at the end,
    and the console are left out. *)
Definition loadWeeklySchedule (userProfile : option string)
           (getClientTrainingSessions : string -> CalendarDate -> CalendarDate -> Fetched)
           (currentWeekStart : Z)
           (shown : list Calendar.WeeklyWorkout * Calendar.WeeklyStats)
  : (list Calendar.WeeklyWorkout * Calendar.WeeklyStats) * Effect :=
  match userProfile with
  | None => (shown, NoEffect)
  | Some profile =>
      match queryRange currentWeekStart with
      | None => (shown, Alert "Error" "Failed to load weekly schedule")
      | Some (startDate, endDate) =>
          match getClientTrainingSessions profile startDate endDate with
          | Rows trainingSessions =>
              (Calendar.loadWeeklySchedule LocalTZA now currentWeekStart
                                           trainingSessions,
               NoEffect)
          | Rejected => (shown, Alert "Error" "Failed to load weekly schedule")
          end
      end
  end.

End Screen.

End CalendarView.

Module DashboardView.

Import JSDate.

(** [handleDayPress]; the early return only logs. *)
Definition handleDayPress (workout : Dashboard.WeeklyWorkout) : Effect :=
  if negb (match Dashboard.template workout with Some _ => true | None => false end)
     && negb (truthy (Dashboard.sessionId workout)) then NoEffect
  else if truthy (Dashboard.sessionId workout) then
    if Dashboard.completed workout
    then Push ("/workout-detail/" ++ interpolate (Dashboard.sessionId workout))
    else Push ("/todays-workout/" ++ interpolate (Dashboard.sessionId workout))
  else
    match Dashboard.template workout with
    | Some t =>
        if Dashboard.completed workout
        then Push ("/workout-detail/" ++ tpl_id t)
        else Push ("/todays-workout/" ++ tpl_id t)
    | None =>
        Alert "Info"
              "No specific session found to start or view details for this workout."
    end.

Definition getWorkoutCount (weeklyWorkouts : list Dashboard.WeeklyWorkout) : Z :=
  Z.of_nat (List.length
              (filter (fun w => match Dashboard.template w with
                                | Some _ => true
                                | None => false
                                end) weeklyWorkouts)).

(** [disabled] of a day button in [renderWeeklyCalendar]. *)
Definition disabled (workout : Dashboard.WeeklyWorkout) : bool :=
  negb (match Dashboard.template workout with Some _ => true | None => false end)
  && negb (truthy (Dashboard.sessionId workout)).

(** The day number as [renderWeeklyCalendar] prints it. *)
Definition dayNumberText (workout : Dashboard.WeeklyWorkout) : string :=
  padStart 2 "0"%char (toString (Dashboard.dayNumber workout)).

End DashboardView.

(** * Properties *)

(** ** Calendar arithmetic *)

Ltac zdiv := Z.div_mod_to_equations; lia.

Lemma DayFromYear_succ y :
  JSDate.DayFromYear (y + 1) = JSDate.DayFromYear y + JSDate.DaysInYear y.
Proof.
  unfold JSDate.DaysInYear, JSDate.isLeap, JSDate.DayFromYear.
  destruct (Z.eqb_spec (y mod 4) 0), (Z.eqb_spec (y mod 100) 0),
    (Z.eqb_spec (y mod 400) 0); cbn [andb orb negb]; zdiv.
Qed.

Lemma DayFromYear_mono a b :
  a <= b -> JSDate.DayFromYear a <= JSDate.DayFromYear b.
Proof.
  intros H. unfold JSDate.DayFromYear. zdiv.
Qed.

Lemma DayFromYear_mean y :
  146097 * (y - 1970) - 800 <= 400 * JSDate.DayFromYear y
  <= 146097 * (y - 1970) + 800.
Proof.
  unfold JSDate.DayFromYear. zdiv.
Qed.

(** [YearFromTime t] is the year whose days contain [Day t]. *)
Lemma YearFromTime_bracket t :
  JSDate.DayFromYear (JSDate.YearFromTime t) <= JSDate.Day t
  < JSDate.DayFromYear (JSDate.YearFromTime t + 1).
Proof.
  unfold JSDate.YearFromTime. cbv zeta.
  generalize (JSDate.Day t). intros d.
  set (y := 1970 + 400 * d / 146097).
  assert (Hy : 146097 * (y - 1970) <= 400 * d < 146097 * (y - 1970) + 146097)
    by (unfold y; zdiv).
  clearbody y.
  pose proof (DayFromYear_mean (y - 1)) as M0.
  pose proof (DayFromYear_mean y) as M1.
  pose proof (DayFromYear_mean (y + 1)) as M2.
  pose proof (DayFromYear_mean (y + 2)) as M3.
  destruct (Z.ltb_spec d (JSDate.DayFromYear y)) as [Hlt|Hge].
  - replace (y - 1 + 1) with y by lia. lia.
  - destruct (Z.leb_spec (JSDate.DayFromYear (y + 1)) d) as [Hle|Hgt].
    + replace (y + 1 + 1) with (y + 2) by lia. lia.
    + lia.
Qed.

(** ... and it is the only such year. *)
Lemma YearFromTime_unique t y :
  JSDate.DayFromYear y <= JSDate.Day t < JSDate.DayFromYear (y + 1) ->
  JSDate.YearFromTime t = y.
Proof.
  intros Hy. pose proof (YearFromTime_bracket t) as Hb.
  destruct (Z.lt_trichotomy (JSDate.YearFromTime t) y) as [Hlt|[Heq|Hgt]]; auto.
  - pose proof (DayFromYear_mono (JSDate.YearFromTime t + 1) y ltac:(lia)). lia.
  - pose proof (DayFromYear_mono (y + 1) (JSDate.YearFromTime t) ltac:(lia)). lia.
Qed.

Lemma DayWithinYear_range t :
  0 <= JSDate.DayWithinYear t < 365 + JSDate.InLeapYear t.
Proof.
  unfold JSDate.DayWithinYear, JSDate.InLeapYear.
  pose proof (YearFromTime_bracket t) as Hb.
  rewrite DayFromYear_succ in Hb. unfold JSDate.DaysInYear in Hb.
  destruct (JSDate.isLeap (JSDate.YearFromTime t)); lia.
Qed.

Lemma MonthFromTime_range t : 0 <= JSDate.MonthFromTime t <= 11.
Proof.
  unfold JSDate.MonthFromTime. cbv zeta.
  repeat match goal with
         | |- context [if ?c then _ else _] => destruct c
         end; lia.
Qed.

(** The day of the month counts from the first of the month. *)
Lemma DateFromTime_range t : 1 <= JSDate.DateFromTime t <= 31.
Proof.
  pose proof (DayWithinYear_range t) as Hr.
  unfold JSDate.DateFromTime, JSDate.MonthFromTime, JSDate.InLeapYear in *.
  cbv zeta.
  destruct (JSDate.isLeap (JSDate.YearFromTime t));
  repeat match goal with
         | |- context [if ?a <? ?b then _ else _] => destruct (Z.ltb_spec a b)
         end; cbn; lia.
Qed.

(** [MakeDay] at the year and month of [t] counts days from [Day t]: a day
    of the month past either end of the month lands in a neighbouring
    month. *)
Lemma MakeDay_current t k :
  JSDate.MakeDay (JSDate.YearFromTime t) (JSDate.MonthFromTime t)
                 (JSDate.DateFromTime t + k)
  = JSDate.Day t + k.
Proof.
  pose proof (MonthFromTime_range t) as Hm.
  unfold JSDate.MakeDay. cbv zeta.
  rewrite (Z.div_small (JSDate.MonthFromTime t) 12) by lia.
  rewrite (Z.mod_small (JSDate.MonthFromTime t) 12) by lia.
  rewrite Z.add_0_r.
  unfold JSDate.DateFromTime, JSDate.DayWithinYear, JSDate.InLeapYear. lia.
Qed.

(** [setDate] counts days on the local calendar: the local time moves by
    whole days and is then read as a time value. *)
Lemma setDate_local tz t k :
  JSDate.setDate tz t (JSDate.getDate tz t + k)
  = JSDate.UTC tz (JSDate.LocalTime tz t + k * JSDate.msPerDay).
Proof.
  unfold JSDate.setDate, JSDate.getDate. cbv zeta.
  rewrite MakeDay_current. f_equal.
  unfold JSDate.MakeDate, JSDate.TimeWithinDay, JSDate.Day, JSDate.msPerDay.
  zdiv.
Qed.

Lemma Day_add_days t k :
  JSDate.Day (t + k * JSDate.msPerDay) = JSDate.Day t + k.
Proof.
  unfold JSDate.Day, JSDate.msPerDay. zdiv.
Qed.

Lemma TimeWithinDay_add_days t k :
  JSDate.TimeWithinDay (t + k * JSDate.msPerDay) = JSDate.TimeWithinDay t.
Proof.
  unfold JSDate.TimeWithinDay, JSDate.msPerDay. zdiv.
Qed.

(** The date [toISODate] prints is a date of the calendar. *)
Lemma toISODate_valid t : JSDate.validDate (JSDate.toISODate t) = true.
Proof.
  pose proof (DayWithinYear_range t) as Hr.
  unfold JSDate.validDate, JSDate.toISODate.
  cbn [JSDate.year JSDate.month JSDate.day].
  unfold JSDate.DateFromTime, JSDate.MonthFromTime, JSDate.daysInMonth,
    JSDate.InLeapYear in *.
  cbv zeta.
  destruct (JSDate.isLeap (JSDate.YearFromTime t));
    repeat match goal with
           | |- context [if ?a <? ?b then _ else _] => destruct (Z.ltb_spec a b)
           end;
    cbn [JSDate.monthStart Z.add Z.eqb Pos.eqb Pos.add Pos.succ orb Z.leb Z.compare
         Pos.compare Pos.compare_cont andb];
    rewrite ?andb_true_l;
    apply andb_true_intro; split; apply Z.leb_le; lia.
Qed.

(** The table of month starts and the lengths of the months agree, and the
    chain of comparisons in [MonthFromTime] inverts the table. *)
Lemma month_table Y M D :
  1 <= M <= 12 ->
  1 <= D <= JSDate.daysInMonth Y M ->
  let l := if JSDate.isLeap Y then 1 else 0 in
  let d := JSDate.monthStart (M - 1) l + D - 1 in
  0 <= d < JSDate.DaysInYear Y
  /\ (if d <? 31 then 0 else if d <? 59 + l then 1 else if d <? 90 + l then 2
      else if d <? 120 + l then 3 else if d <? 151 + l then 4
      else if d <? 181 + l then 5 else if d <? 212 + l then 6
      else if d <? 243 + l then 7 else if d <? 273 + l then 8
      else if d <? 304 + l then 9 else if d <? 334 + l then 10 else 11)
     = M - 1.
Proof.
  intros HM HD. unfold JSDate.daysInMonth, JSDate.DaysInYear in *.
  assert (HMc : M = 1 \/ M = 2 \/ M = 3 \/ M = 4 \/ M = 5 \/ M = 6 \/ M = 7
                \/ M = 8 \/ M = 9 \/ M = 10 \/ M = 11 \/ M = 12) by lia.
  clear HM.
  destruct (JSDate.isLeap Y);
    decompose [or] HMc; clear HMc; subst M;
    cbn [Z.eqb Pos.eqb orb] in HD; cbv zeta;
    match goal with
    | |- context [JSDate.monthStart ?m ?l] =>
        let v := eval vm_compute in (JSDate.monthStart m l) in
        change (JSDate.monthStart m l) with v
    end;
    (split; [lia|]);
    repeat match goal with
           | |- context [if ?a <? ?b then _ else _] =>
               destruct (Z.ltb_spec a b); try lia
           end.
Qed.

(** Printing the parsed form of a calendar date gives the date back. *)
Lemma toISODate_parseDateOnly d :
  JSDate.validDate d = true ->
  JSDate.toISODate (JSDate.parseDateOnly d) = d.
Proof.
  destruct d as [Y M D]. unfold JSDate.validDate.
  cbn [JSDate.year JSDate.month JSDate.day].
  intros Hv.
  repeat (apply andb_prop in Hv; destruct Hv as [Hv ?]).
  assert (HM : 1 <= M <= 12) by lia.
  assert (HD : 1 <= D <= JSDate.daysInMonth Y M) by lia.
  destruct (month_table Y M D HM HD) as [Hrange Hchain].
  unfold JSDate.parseDateOnly, JSDate.toISODate, JSDate.MakeDate.
  cbn [JSDate.year JSDate.month JSDate.day].
  set (l := if JSDate.isLeap Y then 1 else 0) in *.
  set (n := JSDate.MakeDay Y (M - 1) D).
  assert (Hday : JSDate.Day (n * JSDate.msPerDay + 0) = n)
    by (unfold JSDate.Day, JSDate.msPerDay; zdiv).
  assert (Hn : n = JSDate.DayFromYear Y + JSDate.monthStart (M - 1) l + D - 1).
  { unfold n, JSDate.MakeDay. cbv zeta.
    rewrite (Z.div_small (M - 1) 12), (Z.mod_small (M - 1) 12) by lia.
    rewrite Z.add_0_r. reflexivity. }
  assert (Hyear : JSDate.YearFromTime (n * JSDate.msPerDay + 0) = Y).
  { apply YearFromTime_unique. rewrite Hday, DayFromYear_succ, Hn. lia. }
  assert (Hdwy : JSDate.DayWithinYear (n * JSDate.msPerDay + 0)
                 = JSDate.monthStart (M - 1) l + D - 1).
  { unfold JSDate.DayWithinYear. rewrite Hday, Hyear. lia. }
  assert (Hmonth : JSDate.MonthFromTime (n * JSDate.msPerDay + 0) = M - 1).
  { unfold JSDate.MonthFromTime, JSDate.InLeapYear. rewrite Hdwy, Hyear.
    exact Hchain. }
  unfold JSDate.DateFromTime, JSDate.InLeapYear.
  rewrite Hyear, Hmonth, Hdwy. fold l. f_equal; lia.
Qed.

Lemma CalendarDate_eqb_eq a b :
  JSDate.CalendarDate_eqb a b = true <-> a = b.
Proof.
  destruct a as [y1 m1 d1], b as [y2 m2 d2]. unfold JSDate.CalendarDate_eqb.
  cbn [JSDate.year JSDate.month JSDate.day]. split.
  - intros H. apply andb_prop in H. destruct H as [H Hd].
    apply andb_prop in H. destruct H as [Hy Hm].
    apply Z.eqb_eq in Hy, Hm, Hd. congruence.
  - intros H. inversion H. subst. rewrite !Z.eqb_refl. reflexivity.
Qed.

(** ** Time zones *)

(** Where the zone keeps its offset, [setDate] moves a date by whole days
    of 86400000 ms. *)
Lemma setDate_steady tz offset lo hi t k :
  JSDate.steady tz offset lo hi ->
  lo <= t <= hi ->
  lo <= t + k * JSDate.msPerDay <= hi ->
  JSDate.setDate tz t (JSDate.getDate tz t + k) = t + k * JSDate.msPerDay.
Proof.
  intros Hs Ht Hk. rewrite setDate_local.
  destruct (Hs t Ht) as [-> _]. destruct (Hs _ Hk) as [_ Hu].
  replace (t + offset + k * JSDate.msPerDay)
    with (t + k * JSDate.msPerDay + offset) by lia.
  exact Hu.
Qed.

(** Where the zone skips no calendar day, [setDate] moves the local
    calendar day by the number of days asked. *)
Lemma localDay_setDate tz t k :
  JSDate.keepsCalendarDay tz ->
  JSDate.localDay tz (JSDate.setDate tz t (JSDate.getDate tz t + k))
  = JSDate.localDay tz t + k.
Proof.
  intros Hk. unfold JSDate.localDay. rewrite setDate_local, Hk.
  apply Day_add_days.
Qed.

Lemma steady_fixed (offset : Z) lo hi : JSDate.steady offset offset lo hi.
Proof.
  intros t _. unfold JSDate.LocalTime, JSDate.UTC.
  cbn [JSDate.fixedOffset JSDate.initialOffset JSDate.transitions
       JSDate.offsetAt JSDate.offsetOfLocal].
  split; lia.
Qed.

Lemma keepsCalendarDay_fixed (offset : Z) : JSDate.keepsCalendarDay offset.
Proof.
  intros t. unfold JSDate.LocalTime, JSDate.UTC.
  cbn [JSDate.fixedOffset JSDate.initialOffset JSDate.transitions
       JSDate.offsetAt JSDate.offsetOfLocal].
  f_equal. lia.
Qed.

Lemma setDate_getDate (tz : Z) t k :
  JSDate.setDate tz t (JSDate.getDate tz t + k) = t + k * JSDate.msPerDay.
Proof.
  apply (setDate_steady tz tz (Z.min t (t + k * JSDate.msPerDay))
                        (Z.max t (t + k * JSDate.msPerDay)));
    [apply steady_fixed|lia|lia].
Qed.

(** Case analysis on the comparisons of a zone given by its transitions. *)
Ltac zone_cases :=
  unfold JSDate.LocalTime, JSDate.UTC;
  cbn [JSDate.initialOffset JSDate.transitions JSDate.offsetAt
       JSDate.offsetOfLocal];
  repeat match goal with
         | |- context [?a <? ?b] => destruct (Z.ltb_spec a b); try lia
         | |- context [?a <=? ?b] => destruct (Z.leb_spec a b); try lia
         end.

(** New York skips an hour of a Sunday morning, never a day. *)
Lemma keepsCalendarDay_newYork : JSDate.keepsCalendarDay Samples.newYork.
Proof.
  intros t. unfold Samples.newYork. zone_cases;
    unfold JSDate.Day, JSDate.msPerDay; zdiv.
Qed.

Lemma keepsCalendarDay_london : JSDate.keepsCalendarDay Samples.london.
Proof.
  intros t. unfold Samples.london. zone_cases;
    unfold JSDate.Day, JSDate.msPerDay; zdiv.
Qed.

(** New York keeps five hours behind UTC until 2024-03-10, 07:00 UTC. *)
Lemma steady_newYork_winter lo hi :
  hi < 1710054000000 -> JSDate.steady Samples.newYork (-18000000) lo hi.
Proof.
  intros Hhi t Ht. unfold Samples.newYork. split; zone_cases.
Qed.

(** ** The week window *)

(** With fuel for the iterations that remain, the loop appends the dates
    of the indices [i] to 6. *)
Lemma Calendar_weekLoop_spec tz monday fuel i week :
  0 <= i <= 7 ->
  (Z.to_nat (7 - i) <= fuel)%nat ->
  Calendar.weekLoop tz monday i fuel week
  = week ++ map (fun j => JSDate.setDate tz monday
                            (JSDate.getDate tz monday + (i + Z.of_nat j)))
                (seq 0 (Z.to_nat (7 - i))).
Proof.
  revert i week. induction fuel as [|fuel IH]; intros i week Hi Hfuel.
  - replace (Z.to_nat (7 - i)) with 0%nat by lia. cbn. now rewrite app_nil_r.
  - cbn [Calendar.weekLoop]. destruct (Z.ltb_spec i 7) as [Hlt|Hge].
    + rewrite IH by lia. rewrite <- app_assoc. f_equal.
      replace (Z.to_nat (7 - i)) with (S (Z.to_nat (7 - (i + 1)))) by lia.
      cbn [seq map app]. f_equal.
      * do 2 f_equal. lia.
      * rewrite <- seq_shift, map_map. apply map_ext. intros j.
        do 2 f_equal. lia.
    + replace (Z.to_nat (7 - i)) with 0%nat by lia. cbn. now rewrite app_nil_r.
Qed.

(** Seven iterations are all the loop makes: more fuel changes nothing. *)
Lemma Calendar_weekLoop_fuel tz monday fuel :
  (7 <= fuel)%nat ->
  Calendar.weekLoop tz monday 0 fuel [] = Calendar.weekLoop tz monday 0 7 [].
Proof.
  intros H. rewrite !Calendar_weekLoop_spec by (cbn; lia). reflexivity.
Qed.

Lemma Dashboard_weekLoop_eq tz monday fuel i week :
  Dashboard.weekLoop tz monday i fuel week
  = Calendar.weekLoop tz monday i fuel week.
Proof.
  revert i week. induction fuel as [|fuel IH]; intros i week; cbn;
    [|destruct (i <? 7)]; auto.
Qed.

(** The week is Monday, reached from the start date by [setDate], and the
    seven dates reached from Monday by [setDate]. *)
Lemma getWeekDates_unfold tz startDate :
  let monday :=
    JSDate.setDate tz startDate
      (JSDate.getDate tz startDate + Spec.mondayOffset (JSDate.getDay tz startDate)) in
  Calendar.getWeekDates tz startDate
  = map (fun i => JSDate.setDate tz monday (JSDate.getDate tz monday + i))
        [0; 1; 2; 3; 4; 5; 6].
Proof.
  cbv zeta. unfold Calendar.getWeekDates. cbv zeta.
  rewrite Calendar_weekLoop_spec by (cbn; lia).
  change (Z.to_nat (7 - 0)) with 7%nat. reflexivity.
Qed.

Lemma getWeekDates_length tz start :
  List.length (Calendar.getWeekDates tz start) = 7%nat.
Proof.
  rewrite getWeekDates_unfold. reflexivity.
Qed.

Lemma getDay_range tz t : 0 <= JSDate.getDay tz t <= 6.
Proof.
  unfold JSDate.getDay, JSDate.WeekDay. zdiv.
Qed.

Lemma getDay_localDay tz t :
  JSDate.getDay tz t = (JSDate.localDay tz t + 4) mod 7.
Proof. reflexivity. Qed.

Lemma mondayOffset_range wd :
  0 <= wd <= 6 ->
  -6 <= Spec.mondayOffset wd <= 0 /\ (wd + Spec.mondayOffset wd) mod 7 = 1.
Proof.
  intros H. unfold Spec.mondayOffset.
  destruct (Z.eqb_spec wd 0) as [->|Hne]; [split; [lia|reflexivity]|].
  split; [lia|]. replace (wd + (1 - wd)) with 1 by lia. reflexivity.
Qed.

(** Where the zone keeps its offset, the week is the start date moved by
    the Monday offset plus 0 to 6 days of 86400000 ms. *)
Lemma getWeekDates_steady tz offset lo hi startDate :
  JSDate.steady tz offset lo hi ->
  lo <= startDate - 6 * JSDate.msPerDay ->
  startDate + 6 * JSDate.msPerDay <= hi ->
  Calendar.getWeekDates tz startDate
  = map (fun i => startDate
                  + (Spec.mondayOffset (JSDate.getDay tz startDate) + i)
                    * JSDate.msPerDay)
        [0; 1; 2; 3; 4; 5; 6].
Proof.
  intros Hs Hlo Hhi. rewrite getWeekDates_unfold. cbv zeta.
  pose proof (getDay_range tz startDate) as Hwd.
  destruct (mondayOffset_range _ Hwd) as [Hoff _].
  set (off := Spec.mondayOffset (JSDate.getDay tz startDate)) in *.
  unfold JSDate.msPerDay in Hlo, Hhi.
  rewrite (setDate_steady tz offset lo hi startDate off Hs)
    by (unfold JSDate.msPerDay; lia).
  cbn [map].
  repeat match goal with
         | |- context [JSDate.setDate tz ?m (JSDate.getDate tz ?m + ?i)] =>
             rewrite (setDate_steady tz offset lo hi m i Hs)
               by (unfold JSDate.msPerDay; lia)
         end.
  repeat (apply f_equal2; [lia|]). reflexivity.
Qed.

Lemma getWeekDates_closed (tz : Z) startDate :
  Calendar.getWeekDates tz startDate
  = map (fun i => startDate
                  + (Spec.mondayOffset (JSDate.getDay tz startDate) + i)
                    * JSDate.msPerDay)
        [0; 1; 2; 3; 4; 5; 6].
Proof.
  apply (getWeekDates_steady tz tz (startDate - 6 * JSDate.msPerDay)
                             (startDate + 6 * JSDate.msPerDay));
    [apply steady_fixed|lia|lia].
Qed.

(** Where the zone skips no calendar day, the local calendar days of the
    week are the local day of the start date moved by the Monday offset,
    and the six days after it. *)
Lemma getWeekDates_localDays tz startDate :
  JSDate.keepsCalendarDay tz ->
  map (JSDate.localDay tz) (Calendar.getWeekDates tz startDate)
  = map (fun i => JSDate.localDay tz startDate
                  + Spec.mondayOffset (JSDate.getDay tz startDate) + i)
        [0; 1; 2; 3; 4; 5; 6].
Proof.
  intros Hk. rewrite getWeekDates_unfold. cbv zeta. rewrite map_map.
  apply map_ext. intros i. now rewrite !localDay_setDate.
Qed.

(** The dashboard computes its week the way the calendar does. *)
Lemma weekDatesOf_getWeekDates tz today :
  Dashboard.weekDatesOf tz today = Calendar.getWeekDates tz today.
Proof.
  unfold Dashboard.weekDatesOf, Calendar.getWeekDates. cbv zeta.
  apply Dashboard_weekLoop_eq.
Qed.



(** The week of Wednesday 2024-03-06 in New York, Monday the 4th to Sunday
    the 10th: the clocks go forward on the Sunday, and the last date comes
    23 hours after the one before. *)
Example week_across_a_transition :
  map (JSDate.localDate Samples.newYork)
      (Calendar.getWeekDates Samples.newYork Samples.marchWednesday)
  = [JSDate.mkDate 2024 3 4; JSDate.mkDate 2024 3 5; JSDate.mkDate 2024 3 6;
     JSDate.mkDate 2024 3 7; JSDate.mkDate 2024 3 8; JSDate.mkDate 2024 3 9;
     JSDate.mkDate 2024 3 10]
  /\ map (fun date => date - Samples.marchWednesday)
         (Calendar.getWeekDates Samples.newYork Samples.marchWednesday)
     = [-2 * 86400000; -86400000; 0; 86400000; 2 * 86400000; 3 * 86400000;
        4 * 86400000 - 3600000].
Proof. vm_compute. split; reflexivity. Qed.

(** Where a whole day is skipped the week is not seven days: in Apia, from
    Wednesday 2011-12-28, 10:00, the date asked for Friday the 30th is
    Saturday the 31st, the same [Date] as the next one. *)
Example week_with_a_skipped_day :
  map (JSDate.localDate Samples.apia) (Calendar.getWeekDates Samples.apia 1325102400000)
  = [JSDate.mkDate 2011 12 26; JSDate.mkDate 2011 12 27; JSDate.mkDate 2011 12 28;
     JSDate.mkDate 2011 12 29; JSDate.mkDate 2011 12 31; JSDate.mkDate 2011 12 31;
     JSDate.mkDate 2012 1 1]
  /\ Calendar.getWeekDates Samples.apia 1325102400000
     = [1324929600000; 1325016000000; 1325102400000; 1325188800000;
        1325275200000; 1325275200000; 1325361600000].
Proof. vm_compute. split; reflexivity. Qed.

(** The week of Wednesday 2024-01-31 runs over the end of January. *)
Example getWeekDates_month_end :
  map JSDate.toISODate (Calendar.getWeekDates 0 Samples.wednesday)
  = [JSDate.mkDate 2024 1 29; JSDate.mkDate 2024 1 30; JSDate.mkDate 2024 1 31;
     JSDate.mkDate 2024 2 1; JSDate.mkDate 2024 2 2; JSDate.mkDate 2024 2 3;
     JSDate.mkDate 2024 2 4].
Proof. vm_compute. reflexivity. Qed.

(** The week of Sunday 2023-01-01 starts in the year before. *)
Example getWeekDates_year_end :
  map JSDate.toISODate (Calendar.getWeekDates 0 1672574400000)
  = [JSDate.mkDate 2022 12 26; JSDate.mkDate 2022 12 27; JSDate.mkDate 2022 12 28;
     JSDate.mkDate 2022 12 29; JSDate.mkDate 2022 12 30; JSDate.mkDate 2022 12 31;
     JSDate.mkDate 2023 1 1].
Proof. vm_compute. reflexivity. Qed.

(** ** The shape of the derived week *)

(** [find] returns the first match and nothing else. *)
Lemma find_firstMatch {A : Type} (p : A -> bool) (l : list A) (x : A) :
  Spec.firstMatch (fun y => p y = true) l x -> find p l = Some x.
Proof.
  intros (before & after & -> & Hx & Hb).
  induction before as [|a before IH]; cbn [app find].
  - now rewrite Hx.
  - destruct (p a) eqn:Ha.
    + exfalso. apply (Hb a); cbn; auto.
    + apply IH. intros y Hy. apply Hb. cbn; auto.
Qed.

Lemma nth_error_indexed {A B : Type} (f : A -> nat -> B) (l : list A) (idx i : nat) :
  nth_error (map (fun p => f (fst p) (snd p)) (combine l (seq idx (List.length l)))) i
  = option_map (fun d => f d (idx + i)%nat) (nth_error l i).
Proof.
  revert idx i. induction l as [|a l IH]; intros idx i.
  - destruct i; reflexivity.
  - cbn [List.length seq combine map]. destruct i as [|i]; cbn [nth_error option_map].
    + cbn [fst snd]. now rewrite Nat.add_0_r.
    + rewrite IH. now rewrite Nat.add_succ_comm.
Qed.

Lemma forEachDate_spec tz now ss dates idx acc :
  Calendar.forEachDate tz now ss dates idx acc
  = acc ++ map (fun p => Calendar.workoutOfDay tz now ss (fst p) (snd p))
               (combine dates (seq idx (List.length dates))).
Proof.
  revert idx acc. induction dates as [|d dates IH]; intros idx acc.
  - cbn. now rewrite app_nil_r.
  - cbn [Calendar.forEachDate List.length seq combine map].
    rewrite IH, <- app_assoc. reflexivity.
Qed.

Lemma weeklySchedule_nth tz now week ss i :
  nth_error (Calendar.weeklySchedule tz now week ss) i
  = option_map (fun d => Calendar.workoutOfDay tz now ss d i) (nth_error week i).
Proof.
  unfold Calendar.weeklySchedule. rewrite forEachDate_spec. cbn [app].
  apply (nth_error_indexed (Calendar.workoutOfDay tz now ss)).
Qed.

Lemma weeklySchedule_length tz now week ss :
  List.length (Calendar.weeklySchedule tz now week ss) = List.length week.
Proof.
  unfold Calendar.weeklySchedule. rewrite forEachDate_spec. cbn [app].
  rewrite length_map, length_combine, length_seq. apply Nat.min_id.
Qed.

Lemma mapDates_spec tz now tpls ss dates idx :
  Dashboard.mapDates tz now tpls ss dates idx
  = map (fun p => Dashboard.workoutOfDay tz now tpls ss (fst p) (snd p))
        (combine dates (seq idx (List.length dates))).
Proof.
  revert idx. induction dates as [|d dates IH]; intros idx; cbn; [|rewrite IH];
    reflexivity.
Qed.

Lemma weeklyData_nth tz now tpls week ss i :
  nth_error (Dashboard.weeklyData tz now tpls week ss) i
  = option_map (fun d => Dashboard.workoutOfDay tz now tpls ss d i) (nth_error week i).
Proof.
  unfold Dashboard.weeklyData. rewrite mapDates_spec.
  apply (nth_error_indexed (Dashboard.workoutOfDay tz now tpls ss)).
Qed.

Lemma weeklyData_length tz now tpls week ss :
  List.length (Dashboard.weeklyData tz now tpls week ss) = List.length week.
Proof.
  unfold Dashboard.weeklyData. rewrite mapDates_spec.
  rewrite length_map, length_combine, length_seq. apply Nat.min_id.
Qed.

(** Entries that all come from the callback, whatever the index, stand in
    the relation the callback establishes with its date. *)
Lemma Forall2_indexed {A B : Type} (f : A -> nat -> B) (R : A -> B -> Prop)
      (l : list A) (idx : nat) :
  (forall d i, R d (f d i)) ->
  Forall2 R l (map (fun p => f (fst p) (snd p)) (combine l (seq idx (List.length l)))).
Proof.
  intros HR. revert idx. induction l as [|a l IH]; intros idx; cbn; constructor; auto.
Qed.

Lemma weeklySchedule_Forall2 tz now week ss (R : Z -> Calendar.WeeklyWorkout -> Prop) :
  (forall d i, R d (Calendar.workoutOfDay tz now ss d i)) ->
  Forall2 R week (Calendar.weeklySchedule tz now week ss).
Proof.
  intros HR. unfold Calendar.weeklySchedule. rewrite forEachDate_spec. cbn [app].
  now apply (Forall2_indexed (Calendar.workoutOfDay tz now ss)).
Qed.

Lemma weeklyData_Forall2 tz now tpls week ss (R : Z -> Dashboard.WeeklyWorkout -> Prop) :
  (forall d i, R d (Dashboard.workoutOfDay tz now tpls ss d i)) ->
  Forall2 R week (Dashboard.weeklyData tz now tpls week ss).
Proof.
  intros HR. unfold Dashboard.weeklyData. rewrite mapDates_spec.
  now apply (Forall2_indexed (Dashboard.workoutOfDay tz now tpls ss)).
Qed.

(** ** One day of the training calendar *)

Lemma calendar_onDate_eq ds s :
  Calendar.onDate ds s = true <-> TrainingSession.scheduled_date s = Some ds.
Proof.
  unfold Calendar.onDate. destruct (TrainingSession.scheduled_date s) as [d|].
  - rewrite CalendarDate_eqb_eq. split; congruence.
  - split; discriminate.
Qed.

Lemma dashboard_onDate_eq ds s :
  Dashboard.onDate ds s = true <-> Dashboard.sDate s = Some ds.
Proof.
  unfold Dashboard.onDate. destruct (Dashboard.sDate s) as [d|].
  - rewrite CalendarDate_eqb_eq. split; congruence.
  - split; discriminate.
Qed.

(** On a well-formed date the dashboard reads the session's date as it is
    stored. *)
Lemma dashboard_sDate_valid s d :
  TrainingSession.scheduled_date s = Some d ->
  JSDate.validDate d = true ->
  Dashboard.sDate s = Some d.
Proof.
  intros Hd Hv. unfold Dashboard.sDate. rewrite Hd.
  now rewrite toISODate_parseDateOnly.
Qed.

(** A date of the calendar parses, and the dashboard's search raises on no
    session list whose dates are dates of the calendar. *)
Lemma validDate_parses d : JSDate.validDate d = true -> JSDate.parses d = true.
Proof.
  unfold JSDate.validDate, JSDate.parses, JSDate.daysInMonth. intros H.
  repeat (apply andb_prop in H; destruct H as [H ?]).
  rewrite H, H1, H2. cbn [andb]. apply Z.leb_le.
  destruct (JSDate.month d =? 2);
    [destruct (JSDate.isLeap (JSDate.year d))
    |destruct ((JSDate.month d =? 4) || (JSDate.month d =? 6)
               || (JSDate.month d =? 9) || (JSDate.month d =? 11))];
    lia.
Qed.

Lemma findRaises_valid dateString sessions :
  Forall validSession sessions -> Dashboard.findRaises dateString sessions = false.
Proof.
  induction 1 as [|s sessions Hs _ IH]; [reflexivity|].
  cbn [Dashboard.findRaises]. unfold Dashboard.raisesRangeError.
  unfold validSession in Hs.
  destruct (TrainingSession.scheduled_date s) as [d|];
    [rewrite (validDate_parses d Hs); cbn [negb]|];
    destruct (Dashboard.onDate dateString s); auto.
Qed.

(** A stored date with month 13 does not parse: the search raises. *)
Example unparseable_date_raises :
  Dashboard.findRaises Samples.jan31
    [Samples.sessionOn "s3" (JSDate.mkDate 2024 13 1) "scheduled"] = true.
Proof. reflexivity. Qed.

Lemma calendar_rest_day tz now ss date index :
  find (Calendar.onDate (JSDate.toISODate date)) ss = None ->
  Calendar.workoutOfDay tz now ss date index
  = Calendar.mkWorkout (nth_error Calendar.dayNames index) (JSDate.getDate tz date)
                       None false false None None "rest" None None.
Proof.
  intros H. unfold Calendar.workoutOfDay. now rewrite H.
Qed.

Lemma calendar_matched_day tz now ss date index s :
  find (Calendar.onDate (JSDate.toISODate date)) ss = Some s ->
  let w := Calendar.workoutOfDay tz now ss date index in
  let st := TrainingSession.status s in
  Calendar.dayName w = nth_error Calendar.dayNames index
  /\ Calendar.dayNumber w = JSDate.getDate tz date
  /\ Calendar.template w = TrainingSession.template s
  /\ Calendar.missed w = false
  /\ Calendar.sessionId w = Some (TrainingSession.id s)
  /\ Calendar.scheduledTime w = TrainingSession.scheduled_time s
  /\ Calendar.duration_minutes w = TrainingSession.duration_minutes s
  /\ Calendar.notes w = TrainingSession.notes s
  /\ Calendar.completed w = String.eqb st "completed"
  /\ Calendar.status w
     = if String.eqb st "scheduled" then
         if JSDate.lt (JSDate.parseDateTime tz (JSDate.toISODate date)
                                            (Spec.timeOrMidnight s)) now
         then "missed" else st
       else if String.eqb st "no_show" then "missed" else st.
Proof.
  intros H. cbv zeta. unfold Calendar.workoutOfDay, Spec.timeOrMidnight.
  rewrite H. cbv zeta.
  assert (Ht : match TrainingSession.template s with
               | Some t => Some (mkTemplate (tpl_id t) (tpl_name t))
               | None => None
               end = TrainingSession.template s)
    by (destruct (TrainingSession.template s) as [[i n]|]; reflexivity).
  destruct (String.eqb (TrainingSession.status s) "scheduled");
    [destruct (JSDate.lt _ now)
    |destruct (String.eqb (TrainingSession.status s) "no_show")];
    cbn [Calendar.dayName Calendar.dayNumber Calendar.template Calendar.missed
         Calendar.sessionId Calendar.scheduledTime Calendar.duration_minutes
         Calendar.notes Calendar.completed Calendar.status
         Calendar.set_status Calendar.set_completed option_map];
    rewrite Ht; repeat split; reflexivity.
Qed.

(** ** One day of the coaching dashboard *)

Lemma dashboard_rest_day tz now tpls ss date index :
  find (Dashboard.onDate (JSDate.toISODate date)) ss = None ->
  Dashboard.workoutOfDay tz now tpls ss date index
  = Dashboard.mkWorkout (nth_error Dashboard.dayNames index)
                        (JSDate.getDate tz date) None false false None None.
Proof.
  intros H. unfold Dashboard.workoutOfDay. now rewrite H.
Qed.

Lemma dashboard_matched_day tz now tpls ss date index s :
  find (Dashboard.onDate (JSDate.toISODate date)) ss = Some s ->
  let w := Dashboard.workoutOfDay tz now tpls ss date index in
  let st := TrainingSession.status s in
  Dashboard.dayName w = nth_error Dashboard.dayNames index
  /\ Dashboard.dayNumber w = JSDate.getDate tz date
  /\ Dashboard.template w = Some (Dashboard.templateOf tpls s)
  /\ Dashboard.sessionId w = Some (TrainingSession.id s)
  /\ Dashboard.scheduledTime w = TrainingSession.scheduled_time s
  /\ Dashboard.completed w = String.eqb st "completed"
  /\ Dashboard.missed w
     = if String.eqb st "completed" then false
       else if String.eqb st "no_show" || String.eqb st "cancelled" then true
       else (JSDate.parseDateOnly (JSDate.toISODate date) <? now)
            && String.eqb st "scheduled".
Proof.
  intros H. cbv zeta. unfold Dashboard.workoutOfDay. rewrite H. cbv zeta.
  destruct (String.eqb (TrainingSession.status s) "completed");
    [|destruct (String.eqb (TrainingSession.status s) "no_show"
                || String.eqb (TrainingSession.status s) "cancelled");
      [|destruct ((_ <? now) && _)]];
    repeat split; reflexivity.
Qed.

(** The template reference the dashboard attaches to a matched session. *)
Lemma dashboard_templateOf tpls s :
  match TrainingSession.template_id s with
  | Some tid =>
      if String.eqb tid "" then
        Dashboard.templateOf tpls s = Spec.fallbackTemplate s
      else
        match find (fun t => String.eqb (tpl_id t) tid) tpls with
        | Some t => Dashboard.templateOf tpls s = t
        | None => Dashboard.templateOf tpls s = mkTemplate tid "Workout"
        end
  | None => Dashboard.templateOf tpls s = Spec.fallbackTemplate s
  end.
Proof.
  assert (Hf : mkTemplate (TrainingSession.id s)
                 (orElse (TrainingSession.session_type s)
                         (orElse (TrainingSession.type s) "Custom Session"))
               = Spec.fallbackTemplate s).
  { unfold Spec.fallbackTemplate, orElse.
    destruct (TrainingSession.session_type s) as [a|],
      (TrainingSession.type s) as [b|]; try reflexivity;
      try destruct (String.eqb a ""); try destruct (String.eqb b ""); reflexivity. }
  unfold Dashboard.templateOf.
  destruct (TrainingSession.template_id s) as [tid|]; [|exact Hf].
  destruct (String.eqb tid ""); [exact Hf|].
  destruct (find _ tpls) as [[i n]|]; reflexivity.
Qed.

(** ** Status of a matched session *)

(** C1, as stated, fails on the dashboard: a cancelled session and a
    no-show session give the same day entry there, flagged missed. *)
Lemma C1_dashboard_flags_cancelled_as_missed :
  Dashboard.workoutOfDay 0 Samples.noon [] [Samples.sessionWith "cancelled"]
                         Samples.wednesday 2
  = Dashboard.workoutOfDay 0 Samples.noon [] [Samples.sessionWith "no_show"]
                           Samples.wednesday 2
  /\ Dashboard.missed
       (Dashboard.workoutOfDay 0 Samples.noon [] [Samples.sessionWith "cancelled"]
                               Samples.wednesday 2) = true.
Proof. vm_compute. split; reflexivity. Qed.

(** C1 (amended). For a matched session whose stored status is [no_show] or
    [cancelled]: on the training calendar the day status is [missed] for
    [no_show] and [cancelled] for [cancelled]; on the coaching dashboard,
    whose entries have no status but the flags [completed] and [missed],
    both set [missed] and leave [completed] unset. *)
Theorem C1_no_show_and_cancelled tz now tpls calSessions dashSessions date index s :
  TrainingSession.status s = "no_show" \/ TrainingSession.status s = "cancelled" ->
  (find (Calendar.onDate (JSDate.toISODate date)) calSessions = Some s ->
   Calendar.status (Calendar.workoutOfDay tz now calSessions date index)
   = if String.eqb (TrainingSession.status s) "no_show" then "missed" else "cancelled")
  /\ (find (Dashboard.onDate (JSDate.toISODate date)) dashSessions = Some s ->
      Dashboard.missed (Dashboard.workoutOfDay tz now tpls dashSessions date index) = true
      /\ Dashboard.completed (Dashboard.workoutOfDay tz now tpls dashSessions date index)
         = false).
Proof.
  intros Hst. split; intros Hfind.
  - destruct (calendar_matched_day tz now _ _ index _ Hfind)
      as (_ & _ & _ & _ & _ & _ & _ & _ & _ & ->).
    destruct Hst as [-> | ->]; reflexivity.
  - destruct (dashboard_matched_day tz now tpls _ _ index _ Hfind)
      as (_ & _ & _ & _ & _ & -> & ->).
    destruct Hst as [-> | ->]; split; reflexivity.
Qed.

Lemma C1_no_show_and_cancelled_witness :
  Calendar.status
    (Calendar.workoutOfDay 0 Samples.noon [Samples.sessionWith "cancelled"]
                           Samples.wednesday 2) = "cancelled"
  /\ Dashboard.missed
       (Dashboard.workoutOfDay 0 Samples.noon [] [Samples.sessionWith "cancelled"]
                               Samples.wednesday 2) = true.
Proof.
  destruct (C1_no_show_and_cancelled 0 Samples.noon []
              [Samples.sessionWith "cancelled"] [Samples.sessionWith "cancelled"]
              Samples.wednesday 2 (Samples.sessionWith "cancelled")
              (or_intror eq_refl)) as [Hc Hd].
  split.
  - exact (Hc eq_refl).
  - exact (proj1 (Hd eq_refl)).
Defined.

(** The calendar's rule for a scheduled session: the status is [missed]
    if the session's date combined with its scheduled time (00:00:00 when
    absent), read as local time, is strictly before [now], and it remains
    [scheduled] otherwise - also when the time is no clock time and the
    [Date] is invalid. *)
Lemma calendar_scheduled_in_the_past tz now sessions date index s :
  find (Calendar.onDate (JSDate.toISODate date)) sessions = Some s ->
  TrainingSession.status s = "scheduled" ->
  exists d,
    TrainingSession.scheduled_date s = Some d
    /\ Calendar.status (Calendar.workoutOfDay tz now sessions date index)
       = if JSDate.lt (JSDate.parseDateTime tz d (Spec.timeOrMidnight s)) now
         then "missed" else "scheduled".
Proof.
  intros Hfind Hst. exists (JSDate.toISODate date). split.
  - apply find_some in Hfind. now apply calendar_onDate_eq.
  - destruct (calendar_matched_day tz now _ _ index _ Hfind)
      as (_ & _ & _ & _ & _ & _ & _ & _ & _ & ->).
    rewrite Hst. reflexivity.
Qed.

(** C2. The dashboard does not do what the claim says: with the clock at
    noon of 2024-01-31, a session scheduled for 18:00:00 of that day - its
    date and time are not before [now] - is flagged missed, because the
    dashboard compares the start of the date, UTC midnight, with [now]
    and never reads the scheduled time.  The calendar leaves the same
    session [scheduled]. *)
Lemma C2_dashboard_ignores_scheduled_time :
  JSDate.parseDateTime 0 Samples.jan31 (JSDate.mkTime 18 0 0)
  = Some (Samples.noon + 6 * JSDate.msPerHour)
  /\ JSDate.lt (JSDate.parseDateTime 0 Samples.jan31 (JSDate.mkTime 18 0 0))
               Samples.noon = false
  /\ Dashboard.missed
       (Dashboard.workoutOfDay 0 Samples.noon [] [Samples.sessionWith "scheduled"]
                               Samples.wednesday 2) = true
  /\ Calendar.status
       (Calendar.workoutOfDay 0 Samples.noon [Samples.sessionWith "scheduled"]
                              Samples.wednesday 2) = "scheduled".
Proof. vm_compute. repeat split; reflexivity. Qed.

(** A clock time that is none, 25:00:00, makes the [Date] invalid: the
    comparison is false and the session stays [scheduled] however late it
    is. *)
Example invalid_time_stays_scheduled :
  Calendar.status
    (Calendar.workoutOfDay 0 (Samples.noon + 365 * JSDate.msPerDay)
       [TrainingSession.mk "s1" (Some Samples.jan31) (Some (JSDate.mkTime 25 0 0))
          "scheduled" None None None None None None]
       Samples.wednesday 2) = "scheduled".
Proof. vm_compute. reflexivity. Qed.

(** The dashboard's flag for a scheduled session follows the date alone:
    it is set exactly when the start of the date, UTC midnight, is strictly
    before [now]. *)
Lemma dashboard_scheduled_missed tz now tpls sessions date index s :
  find (Dashboard.onDate (JSDate.toISODate date)) sessions = Some s ->
  TrainingSession.status s = "scheduled" ->
  Dashboard.sDate s = Some (JSDate.toISODate date)
  /\ Dashboard.missed (Dashboard.workoutOfDay tz now tpls sessions date index)
     = (JSDate.parseDateOnly (JSDate.toISODate date) <? now)
  /\ Dashboard.completed (Dashboard.workoutOfDay tz now tpls sessions date index)
     = false.
Proof.
  intros Hfind Hst. split.
  - apply find_some in Hfind. now apply dashboard_onDate_eq.
  - destruct (dashboard_matched_day tz now tpls _ _ index _ Hfind)
      as (_ & _ & _ & _ & _ & -> & ->).
    rewrite Hst. cbn. split; [apply andb_true_r|reflexivity].
Qed.

(** A session of yesterday at 08:00:00 is missed, one of tomorrow is still
    scheduled (the calendar, at noon of 2024-01-31). *)
Example calendar_yesterday_missed_tomorrow_scheduled :
  Calendar.status
    (Calendar.workoutOfDay 0 Samples.noon
       [TrainingSession.mk "y" (Some (JSDate.mkDate 2024 1 30))
          (Some (JSDate.mkTime 8 0 0)) "scheduled" None None None None None None]
       (Samples.wednesday - JSDate.msPerDay) 1) = "missed"
  /\ Calendar.status
       (Calendar.workoutOfDay 0 Samples.noon
          [TrainingSession.mk "t" (Some (JSDate.mkDate 2024 2 1))
             None "scheduled" None None None None None None]
          (Samples.wednesday + JSDate.msPerDay) 3) = "scheduled".
Proof. vm_compute. split; reflexivity. Qed.

(** ** What a matched day carries *)

(** C7, as stated, fails on the calendar: a matched session without a
    template leaves the day entry without a template reference. *)
Lemma C7_calendar_has_no_fallback_template :
  find (Calendar.onDate (JSDate.toISODate Samples.wednesday))
       [Samples.sessionWith "scheduled"] = Some (Samples.sessionWith "scheduled")
  /\ Calendar.template
       (Calendar.workoutOfDay 0 Samples.noon [Samples.sessionWith "scheduled"]
                              Samples.wednesday 2) = None.
Proof. vm_compute. split; reflexivity. Qed.

(** C7 (amended). For a date matched by a session record: on the training
    calendar the day entry carries the session's own template when it has
    one and no template otherwise, and copies the session's identifier,
    scheduled time, duration and notes; on the coaching dashboard the entry
    always carries a template reference - the loaded template the session's
    [template_id] names, or that identifier with the name "Workout" when no
    loaded template has it, or, for a session without [template_id], the
    fallback built from the session's identifier and its session-type label
    or "Custom Session" - and copies the session's identifier and scheduled
    time (its entries have no duration or notes). *)
Theorem C7_matched_day_carries tz now tpls calSessions dashSessions date index s :
  (find (Calendar.onDate (JSDate.toISODate date)) calSessions = Some s ->
   let w := Calendar.workoutOfDay tz now calSessions date index in
   Calendar.template w = TrainingSession.template s
   /\ Calendar.sessionId w = Some (TrainingSession.id s)
   /\ Calendar.scheduledTime w = TrainingSession.scheduled_time s
   /\ Calendar.duration_minutes w = TrainingSession.duration_minutes s
   /\ Calendar.notes w = TrainingSession.notes s)
  /\ (find (Dashboard.onDate (JSDate.toISODate date)) dashSessions = Some s ->
      let w := Dashboard.workoutOfDay tz now tpls dashSessions date index in
      (exists t,
          Dashboard.template w = Some t
          /\ match TrainingSession.template_id s with
             | Some tid =>
                 if String.eqb tid "" then t = Spec.fallbackTemplate s
                 else match find (fun t' => String.eqb (tpl_id t') tid) tpls with
                      | Some t' => t = t'
                      | None => t = mkTemplate tid "Workout"
                      end
             | None => t = Spec.fallbackTemplate s
             end)
      /\ Dashboard.sessionId w = Some (TrainingSession.id s)
      /\ Dashboard.scheduledTime w = TrainingSession.scheduled_time s).
Proof.
  split; intros Hfind; cbv zeta.
  - destruct (calendar_matched_day tz now _ _ index _ Hfind)
      as (_ & _ & Ht & _ & Hid & Htime & Hdur & Hnotes & _).
    auto.
  - destruct (dashboard_matched_day tz now tpls _ _ index _ Hfind)
      as (_ & _ & Ht & Hid & Htime & _).
    split; [|auto].
    exists (Dashboard.templateOf tpls s). split; [exact Ht|].
    apply dashboard_templateOf.
Qed.

Lemma C7_matched_day_carries_witness :
  Calendar.template
    (Calendar.workoutOfDay 0 Samples.noon [Samples.templatedWith "completed"]
                           Samples.wednesday 2) = Some Samples.upperBody
  /\ Calendar.notes
       (Calendar.workoutOfDay 0 Samples.noon [Samples.templatedWith "completed"]
                              Samples.wednesday 2) = Some "push"
  /\ Dashboard.sessionId
       (Dashboard.workoutOfDay 0 Samples.noon [Samples.upperBody]
                               [Samples.templatedWith "completed"]
                               Samples.wednesday 2) = Some "s2".
Proof.
  destruct (C7_matched_day_carries 0 Samples.noon [Samples.upperBody]
              [Samples.templatedWith "completed"]
              [Samples.templatedWith "completed"]
              Samples.wednesday 2 (Samples.templatedWith "completed"))
    as [Hc Hd].
  destruct (Hc eq_refl) as (Ht & _ & _ & _ & Hn).
  destruct (Hd eq_refl) as (_ & Hid & _).
  split; [exact Ht|]. split; [exact Hn|exact Hid].
Defined.

(** The two screens on one templated session: the calendar copies the
    template the session embeds, the dashboard resolves its [template_id]. *)
Example matched_day_with_template :
  Calendar.template
    (Calendar.workoutOfDay 0 Samples.noon [Samples.templatedWith "completed"]
                           Samples.wednesday 2) = Some Samples.upperBody
  /\ Dashboard.template
       (Dashboard.workoutOfDay 0 Samples.noon [Samples.upperBody]
                               [Samples.templatedWith "completed"]
                               Samples.wednesday 2) = Some Samples.upperBody
  /\ Dashboard.template
       (Dashboard.workoutOfDay 0 Samples.noon []
                               [Samples.templatedWith "completed"]
                               Samples.wednesday 2)
     = Some (mkTemplate "tpl-7" "Workout")
  /\ Dashboard.template
       (Dashboard.workoutOfDay 0 Samples.noon [] [Samples.sessionWith "completed"]
                               Samples.wednesday 2)
     = Some (mkTemplate "s1" "Custom Session").
Proof. vm_compute. repeat split; reflexivity. Qed.

(** ** One entry per date, and the session it shows *)

Lemma sessionIdOf_find (dateOf : TrainingSession.t -> option JSDate.CalendarDate)
      (p : TrainingSession.t -> bool) ss ds :
  (forall s, p s = true <-> dateOf s = Some ds) ->
  Spec.sessionIdOf dateOf ss ds (option_map TrainingSession.id (find p ss)).
Proof.
  intros Hp. split.
  - destruct (find p ss) as [s|] eqn:Hfind; cbn [option_map].
    + apply find_some in Hfind. destruct Hfind as [Hin Hs].
      split; [intros _|discriminate]. exists s. split; [exact Hin|now apply Hp].
    + split; [congruence|]. intros (s & Hin & Hs). exfalso.
      pose proof (find_none _ _ Hfind s Hin) as Hn.
      apply Hp in Hs. congruence.
  - intros s (before & after & Hl & Hs & Hb).
    rewrite (find_firstMatch p ss s); [reflexivity|].
    exists before, after. split; [exact Hl|]. split; [now apply Hp|].
    intros y Hy Hpy. apply (Hb y Hy). now apply Hp.
Qed.

Lemma calendar_day_label tz now ss date index :
  let w := Calendar.workoutOfDay tz now ss date index in
  Calendar.dayName w = nth_error Calendar.dayNames index
  /\ Calendar.dayNumber w = JSDate.getDate tz date
  /\ Calendar.sessionId w
     = option_map TrainingSession.id
                  (find (Calendar.onDate (JSDate.toISODate date)) ss).
Proof.
  cbv zeta.
  destruct (find (Calendar.onDate (JSDate.toISODate date)) ss) as [s|] eqn:Hfind.
  - destruct (calendar_matched_day tz now _ _ index _ Hfind)
      as (Hn & Hd & _ & _ & Hid & _). auto.
  - rewrite (calendar_rest_day tz now _ _ index Hfind). auto.
Qed.

Lemma dashboard_day_label tz now tpls ss date index :
  let w := Dashboard.workoutOfDay tz now tpls ss date index in
  Dashboard.dayName w = nth_error Dashboard.dayNames index
  /\ Dashboard.dayNumber w = JSDate.getDate tz date
  /\ Dashboard.sessionId w
     = option_map TrainingSession.id
                  (find (Dashboard.onDate (JSDate.toISODate date)) ss).
Proof.
  cbv zeta.
  destruct (find (Dashboard.onDate (JSDate.toISODate date)) ss) as [s|] eqn:Hfind.
  - destruct (dashboard_matched_day tz now tpls _ _ index _ Hfind)
      as (Hn & Hd & _ & Hid & _). auto.
  - rewrite (dashboard_rest_day tz now tpls _ _ index Hfind). auto.
Qed.

(** For all inputs, each screen returns exactly 7 day entries, the i-th
    one made from the i-th date of the week, in the order of the week
    (labels M, T, W, T, F, S, S); the session identifier of an entry is set
    if and only if a session record's scheduled date is the date string of
    the entry's [Date], its calendar date in UTC, and it is then the
    identifier of the first such record in input order.  The dashboard
    reads a session's date through [sDate], which is the stored date
    whenever that is a date of the calendar. *)
Lemma entries_follow_the_week tz now tpls start sessions :
  let week := Calendar.getWeekDates tz start in
  let entries := fst (Calendar.loadWeeklySchedule tz now start sessions) in
  let dash := Dashboard.loadWeeklyWorkouts tz now tpls start sessions in
  (List.length entries = 7%nat
   /\ map Calendar.dayName entries = map Some Calendar.dayNames
   /\ Forall2 (fun date w =>
                 Calendar.dayNumber w = JSDate.getDate tz date
                 /\ Spec.sessionIdOf TrainingSession.scheduled_date sessions
                                     (JSDate.toISODate date) (Calendar.sessionId w))
              week entries)
  /\ (List.length dash = 7%nat
      /\ map Dashboard.dayName dash = map Some Dashboard.dayNames
      /\ Forall2 (fun date w =>
                    Dashboard.dayNumber w = JSDate.getDate tz date
                    /\ Spec.sessionIdOf Dashboard.sDate sessions
                                        (JSDate.toISODate date) (Dashboard.sessionId w))
                 week dash)
  /\ (forall s d, TrainingSession.scheduled_date s = Some d ->
                  JSDate.validDate d = true -> Dashboard.sDate s = Some d).
Proof.
  cbv zeta. unfold Calendar.loadWeeklySchedule, Calendar.deriveWeek,
    Dashboard.loadWeeklyWorkouts. cbn [fst].
  rewrite (weekDatesOf_getWeekDates tz start) at 1 2 3.
  split; [|split]; [split; [|split] | split; [|split] | ].
  - now rewrite weeklySchedule_length, getWeekDates_length.
  - rewrite getWeekDates_unfold. cbv zeta. cbn [map].
    unfold Calendar.weeklySchedule. cbn [Calendar.forEachDate app map].
    repeat match goal with
           | |- context [Calendar.dayName (Calendar.workoutOfDay ?a ?b ?c ?d ?e)] =>
               rewrite (proj1 (calendar_day_label a b c d e))
           end.
    reflexivity.
  - apply weeklySchedule_Forall2. intros d i.
    destruct (calendar_day_label tz now sessions d i) as (_ & Hd & ->).
    split; [exact Hd|]. apply sessionIdOf_find. intros s. apply calendar_onDate_eq.
  - now rewrite weeklyData_length, getWeekDates_length.
  - rewrite getWeekDates_unfold. cbv zeta. cbn [map].
    unfold Dashboard.weeklyData. cbn [Dashboard.mapDates map].
    repeat match goal with
           | |- context [Dashboard.dayName (Dashboard.workoutOfDay ?a ?b ?c ?d ?e ?f)] =>
               rewrite (proj1 (dashboard_day_label a b c d e f))
           end.
    reflexivity.
  - apply weeklyData_Forall2. intros d i.
    destruct (dashboard_day_label tz now tpls sessions d i) as (_ & Hd & ->).
    split; [exact Hd|]. apply sessionIdOf_find. intros s. apply dashboard_onDate_eq.
  - intros s d. apply dashboard_sDate_valid.
Qed.

(** C9. An entry does not show the session of its date.  The date an entry
    shows is the local one, the date string it is matched on is the one of
    UTC: in Kolkata, with the week built at 04:30 of Monday 2024-02-05,
    the seven entries are the days 5 to 11 of February, the entry numbered
    5 carries the session dated 2024-02-04, and the session dated
    2024-02-11, the Sunday of that week, is on no entry.  The same on both
    screens. *)
Lemma C9_entry_is_matched_on_the_utc_date :
  map (JSDate.localDate Samples.kolkata)
      (Calendar.getWeekDates Samples.kolkata Samples.februaryMonday)
  = [JSDate.mkDate 2024 2 5; JSDate.mkDate 2024 2 6; JSDate.mkDate 2024 2 7;
     JSDate.mkDate 2024 2 8; JSDate.mkDate 2024 2 9; JSDate.mkDate 2024 2 10;
     JSDate.mkDate 2024 2 11]
  /\ map Calendar.dayNumber
         (fst (Calendar.loadWeeklySchedule Samples.kolkata Samples.februaryMonday
                 Samples.februaryMonday Samples.februarySessions))
     = [5; 6; 7; 8; 9; 10; 11]
  /\ map Calendar.sessionId
         (fst (Calendar.loadWeeklySchedule Samples.kolkata Samples.februaryMonday
                 Samples.februaryMonday Samples.februarySessions))
     = [Some "feb04"; None; None; None; None; None; None]
  /\ map Dashboard.dayNumber
         (Dashboard.loadWeeklyWorkouts Samples.kolkata Samples.februaryMonday []
            Samples.februaryMonday Samples.februarySessions)
     = [5; 6; 7; 8; 9; 10; 11]
  /\ map Dashboard.sessionId
         (Dashboard.loadWeeklyWorkouts Samples.kolkata Samples.februaryMonday []
            Samples.februaryMonday Samples.februarySessions)
     = [Some "feb04"; None; None; None; None; None; None].
Proof. vm_compute. repeat split; reflexivity. Qed.

(** The date an entry is matched on is the UTC date of its [Date], while
    its day number is the local one: five and a half hours east of UTC, at
    04:30 local time of Monday 2024-02-05, the entry numbered 5 is matched
    on 2024-02-04. *)
Example date_string_is_utc_date :
  map (JSDate.getDate 19800000) (Calendar.getWeekDates 19800000 1707087600000)
  = [5; 6; 7; 8; 9; 10; 11]
  /\ map JSDate.toISODate (Calendar.getWeekDates 19800000 1707087600000)
     = [JSDate.mkDate 2024 2 4; JSDate.mkDate 2024 2 5; JSDate.mkDate 2024 2 6;
        JSDate.mkDate 2024 2 7; JSDate.mkDate 2024 2 8; JSDate.mkDate 2024 2 9;
        JSDate.mkDate 2024 2 10].
Proof. vm_compute. split; reflexivity. Qed.

(** Of two sessions on one date the first in input order is shown. *)
Example first_match_wins :
  map Calendar.sessionId
      (fst (Calendar.loadWeeklySchedule 0 Samples.noon Samples.wednesday
              [Samples.templatedWith "completed"; Samples.sessionWith "scheduled"]))
  = [None; None; Some "s2"; None; None; None; None].
Proof. vm_compute. reflexivity. Qed.

(** ** The flags of the dashboard *)

(** C10. On the coaching dashboard, for every day entry produced, the flags
    [completed] and [missed] are never both set, and [completed] is set
    exactly when the session matched to the day has stored status
    [completed]. *)
Theorem C10_dashboard_flags tz now tpls today weekDates sessions :
  let ok := fun date w =>
    Dashboard.completed w && Dashboard.missed w = false
    /\ (Dashboard.completed w = true <->
        exists s, find (Dashboard.onDate (JSDate.toISODate date)) sessions = Some s
                  /\ TrainingSession.status s = "completed") in
  Forall2 ok weekDates (Dashboard.weeklyData tz now tpls weekDates sessions)
  /\ Forall2 ok (Dashboard.weekDatesOf tz today)
             (Dashboard.loadWeeklyWorkouts tz now tpls today sessions).
Proof.
  cbv zeta.
  assert (Hday : forall d i,
             Dashboard.completed (Dashboard.workoutOfDay tz now tpls sessions d i)
             && Dashboard.missed (Dashboard.workoutOfDay tz now tpls sessions d i) = false
             /\ (Dashboard.completed (Dashboard.workoutOfDay tz now tpls sessions d i) = true <->
                 exists s, find (Dashboard.onDate (JSDate.toISODate d)) sessions = Some s
                           /\ TrainingSession.status s = "completed")).
  { intros d i.
    destruct (find (Dashboard.onDate (JSDate.toISODate d)) sessions) as [s|] eqn:Hfind.
    - destruct (dashboard_matched_day tz now tpls _ _ i _ Hfind)
        as (_ & _ & _ & _ & _ & -> & ->).
      split.
      + destruct (String.eqb (TrainingSession.status s) "completed"); reflexivity.
      + rewrite String.eqb_eq. split.
        * intros Hst. exists s. auto.
        * intros (s' & Hs' & Hst). congruence.
    - rewrite (dashboard_rest_day tz now tpls _ _ i Hfind). cbn. split; [reflexivity|].
      split; [discriminate|]. intros (s & Hs & _). discriminate. }
  split; [|unfold Dashboard.loadWeeklyWorkouts];
    apply weeklyData_Forall2; exact Hday.
Qed.

(** ** A week without sessions *)

Lemma filter_none {A : Type} (p : A -> bool) (l : list A) :
  Forall (fun x => p x = false) l -> filter p l = [].
Proof.
  induction 1 as [|x l Hx _ IH]; cbn; [|rewrite Hx]; auto.
Qed.

Lemma Forall2_Forall_r {A B : Type} (P : B -> Prop) (l : list A) (l' : list B) :
  Forall2 (fun _ y => P y) l l' -> Forall P l'.
Proof.
  induction 1; constructor; auto.
Qed.

(** C6. For every week, if the session set is empty every derived day entry
    has status [rest] and no template, session identifier, scheduled time,
    duration or notes, there is one entry per date (7 for the week of any
    date), and the statistics have [totalWorkouts = 0] and
    [completionRate = 0]. *)
Theorem C6_empty_session_set tz now weekDates currentWeekStart :
  let result := Calendar.deriveWeek tz now weekDates [] in
  Forall (fun w =>
            Calendar.status w = "rest" /\ Calendar.template w = None
            /\ Calendar.sessionId w = None /\ Calendar.scheduledTime w = None
            /\ Calendar.duration_minutes w = None /\ Calendar.notes w = None)
         (fst result)
  /\ List.length (fst result) = List.length weekDates
  /\ Calendar.totalWorkouts (snd result) = 0
  /\ Calendar.completedWorkouts (snd result) = 0
  /\ Calendar.totalDuration (snd result) = 0
  /\ Calendar.completionRate (snd result) = Some (inject_Z 0)
  /\ List.length (fst (Calendar.loadWeeklySchedule tz now currentWeekStart [])) = 7%nat
  /\ Calendar.loadWeeklySchedule tz now currentWeekStart []
     = Calendar.deriveWeek tz now (Calendar.getWeekDates tz currentWeekStart) [].
Proof.
  cbv zeta. unfold Calendar.loadWeeklySchedule, Calendar.deriveWeek. cbn [fst snd].
  assert (Hrest : Forall (fun w =>
            Calendar.status w = "rest" /\ Calendar.template w = None
            /\ Calendar.sessionId w = None /\ Calendar.scheduledTime w = None
            /\ Calendar.duration_minutes w = None /\ Calendar.notes w = None)
            (Calendar.weeklySchedule tz now weekDates [])).
  { apply (Forall2_Forall_r _ weekDates). apply weeklySchedule_Forall2.
    intros d i. rewrite (calendar_rest_day tz now [] d i eq_refl). cbn. auto 10. }
  assert (Hnone : filter Calendar.countsAsWorkout
                         (Calendar.weeklySchedule tz now weekDates []) = []).
  { apply filter_none. eapply Forall_impl; [|exact Hrest].
    intros w (Hst & Ht & _). unfold Calendar.countsAsWorkout. now rewrite Hst, Ht. }
  assert (Hdone : filter Calendar.isCompleted
                         (Calendar.weeklySchedule tz now weekDates []) = []).
  { apply filter_none. eapply Forall_impl; [|exact Hrest].
    intros w (Hst & _). unfold Calendar.isCompleted. now rewrite Hst. }
  split; [exact Hrest|].
  split; [apply weeklySchedule_length|].
  unfold Calendar.calculateWeeklyStats. cbv zeta.
  cbn [Calendar.totalWorkouts Calendar.completedWorkouts Calendar.totalDuration
       Calendar.completionRate].
  rewrite Hnone, Hdone. cbn [List.length fold_left Z.of_nat Z.ltb Z.compare].
  do 4 (split; [reflexivity|]).
  split; [now rewrite weeklySchedule_length, getWeekDates_length|reflexivity].
Qed.

(** ** Weekly statistics *)

Lemma length_filter_count {A : Type} (p : A -> bool) (l : list A) :
  Z.of_nat (List.length (filter p l)) = Spec.count p l.
Proof.
  induction l as [|x l IH]; cbn [filter Spec.count]; [reflexivity|].
  destruct (p x); cbn [List.length]; lia.
Qed.

Lemma count_ext {A : Type} (p q : A -> bool) (l : list A) :
  (forall x, p x = q x) -> Spec.count p l = Spec.count q l.
Proof.
  intros H. induction l as [|x l IH]; cbn; [|rewrite H, IH]; reflexivity.
Qed.

Lemma count_app {A : Type} (p : A -> bool) (l l' : list A) :
  Spec.count p (l ++ l') = Spec.count p l + Spec.count p l'.
Proof.
  induction l as [|x l IH]; cbn [app Spec.count]; lia.
Qed.

Lemma count_range {A : Type} (p : A -> bool) (l : list A) :
  0 <= Spec.count p l <= Z.of_nat (List.length l).
Proof.
  induction l as [|x l IH]; cbn [Spec.count List.length]; [lia|].
  destruct (p x); lia.
Qed.

Lemma totalWorkouts_count workouts :
  Z.of_nat (List.length (filter Calendar.countsAsWorkout workouts))
  = Spec.totalWorkouts workouts.
Proof.
  rewrite length_filter_count. apply count_ext. intros w.
  unfold Calendar.countsAsWorkout. destruct (Calendar.template w); reflexivity.
Qed.

Lemma fold_left_duration workouts acc :
  fold_left (fun sum w => sum + Calendar.durationOrZero w)
            (filter Calendar.isCompleted workouts) acc
  = acc + Spec.totalDuration workouts.
Proof.
  revert acc. induction workouts as [|w ws IH]; intros acc;
    cbn [filter fold_left Spec.totalDuration]; [lia|].
  unfold Calendar.isCompleted at 1.
  destruct (String.eqb (Calendar.status w) "completed"); cbn [fold_left];
    rewrite IH; unfold Calendar.durationOrZero; lia.
Qed.

(** For every list of day entries the counts and the sum of
    [calculateWeeklyStats] are the reference ones; on exact numbers, without
    the rounding of the division and of the product, [completionRate] is 0
    when [totalWorkouts] is 0 and [100 * completedWorkouts / totalWorkouts]
    otherwise. *)
Lemma statistics_on_exact_numbers workouts :
  let stats := Calendar.calculateWeeklyStats workouts in
  Calendar.totalWorkouts stats = Spec.totalWorkouts workouts
  /\ Calendar.completedWorkouts stats = Spec.completedWorkouts workouts
  /\ Calendar.totalDuration stats = Spec.totalDuration workouts
  /\ (exists rate, Calendar.completionRate stats = Some rate
                   /\ (rate == Spec.completionRate workouts)%Q)
  /\ (Spec.totalWorkouts workouts = 0 ->
      Calendar.completionRate stats = Some (inject_Z 0)).
Proof.
  cbv zeta. unfold Calendar.calculateWeeklyStats. cbv zeta.
  cbn [Calendar.totalWorkouts Calendar.completedWorkouts Calendar.totalDuration
       Calendar.completionRate].
  rewrite totalWorkouts_count, fold_left_duration.
  assert (Hc : Z.of_nat (List.length (filter Calendar.isCompleted workouts))
               = Spec.completedWorkouts workouts)
    by apply length_filter_count.
  rewrite Hc.
  pose proof (count_range (fun w => match Calendar.template w with
                                    | Some _ => true
                                    | None => negb (String.eqb (Calendar.status w) "rest")
                                    end) workouts) as Hrange.
  fold (Spec.totalWorkouts workouts) in Hrange.
  repeat (split; [reflexivity|]).
  unfold Spec.completionRate, js_div.
  destruct (Z.ltb_spec 0 (Spec.totalWorkouts workouts)) as [Hpos|Hzero].
  - assert (Hne : ~ (inject_Z (Spec.totalWorkouts workouts) == 0)%Q).
    { unfold Qeq. cbn. lia. }
    destruct (Qeq_bool (inject_Z (Spec.totalWorkouts workouts)) 0) eqn:Hq.
    + apply Qeq_bool_iff in Hq. contradiction.
    + destruct (Z.eqb_spec (Spec.totalWorkouts workouts) 0) as [H0|_]; [lia|].
      split; [|lia]. eexists. split; [reflexivity|]. field. exact Hne.
  - assert (H0 : Spec.totalWorkouts workouts = 0) by lia.
    rewrite H0. cbn [Z.eqb]. split; [|reflexivity].
    eexists. split; reflexivity.
Qed.

Lemma count_le_impl {A : Type} (p q : A -> bool) (l : list A) :
  (forall x, p x = true -> q x = true) -> Spec.count p l <= Spec.count q l.
Proof.
  intros H. induction l as [|x l IH]; cbn [Spec.count]; [lia|].
  destruct (p x) eqn:Hp; [rewrite (H x Hp)|destruct (q x)]; lia.
Qed.

Lemma completed_le_total workouts :
  0 <= Spec.completedWorkouts workouts <= Spec.totalWorkouts workouts
  /\ Spec.totalWorkouts workouts <= Z.of_nat (List.length workouts).
Proof.
  split; [split; [apply count_range|]|apply count_range].
  apply count_le_impl. intros w Hw.
  apply String.eqb_eq in Hw. rewrite Hw. now destruct (Calendar.template w).
Qed.

(** The rate of [c] completed workouts out of [t], at most 7, as binary64
    arithmetic gives it: a finite number from 0 to 100, within 2^-46 of
    the exact rate, which [Math.round] takes to the same integer. *)
Lemma rate_of_a_week c t :
  0 <= c <= t -> t <= 7 ->
  exists q,
    Number.valueOf (if 0 <? t
                    then (Number.of_Z c / Number.of_Z t * 100)%float
                    else 0%float) = Some q
    /\ (0 <= q)%Q /\ (q <= inject_Z 100)%Q
    /\ (Qabs (q - (if t =? 0 then inject_Z 0
                   else inject_Z 100 * inject_Z c / inject_Z t))
        <= 1 # 70368744177664)%Q
    /\ Math_round (Some q)
       = Math_round (Some (if t =? 0 then inject_Z 0
                           else inject_Z 100 * inject_Z c / inject_Z t)%Q).
Proof.
  intros Hc Ht.
  assert (Hts : t = 0 \/ t = 1 \/ t = 2 \/ t = 3 \/ t = 4 \/ t = 5 \/ t = 6 \/ t = 7)
    by lia.
  assert (Hcs : c = 0 \/ c = 1 \/ c = 2 \/ c = 3 \/ c = 4 \/ c = 5 \/ c = 6 \/ c = 7)
    by lia.
  decompose [or] Hts; clear Hts; subst t;
    decompose [or] Hcs; clear Hcs; subst c; try lia;
    match goal with
    | |- exists q, Number.valueOf ?r = Some q /\ _ =>
        let v := eval vm_compute in (Number.valueOf r) in
        match v with
        | Some ?q0 => exists q0
        end
    end;
    (split; [vm_compute; reflexivity|]);
    (split; [apply Qle_bool_iff; vm_compute; reflexivity|]);
    (split; [apply Qle_bool_iff; vm_compute; reflexivity|]);
    (split; [apply Qle_bool_iff; vm_compute; reflexivity|]);
    vm_compute; reflexivity.
Qed.

(** C3, as stated, fails on the rate: with one workout completed out of
    three, [completionRate] is neither [100 * 1 / 3] nor the number
    JavaScript computes for that expression; the code divides first and
    multiplies after, and both steps round. *)
Lemma C3_rate_of_one_in_three :
  Spec.completedWorkouts Samples.threeSessionWeek = 1
  /\ Spec.totalWorkouts Samples.threeSessionWeek = 3
  /\ Number.valueOf (Calendar.completionRate64 Samples.threeSessionWeek)
     = Some (4691249611844266 # 140737488355328)
  /\ ~ (4691249611844266 # 140737488355328
        == Spec.completionRate Samples.threeSessionWeek)%Q
  /\ Number.valueOf (100 * 1 / 3)%float
     = Some (4691249611844267 # 140737488355328).
Proof.
  split; [reflexivity|]. split; [reflexivity|].
  split; [vm_compute; reflexivity|].
  split; [|vm_compute; reflexivity].
  vm_compute. discriminate.
Qed.

(** C3 (amended). For every week of 7 day entries the statistics are the
    reference ones - [totalWorkouts] counts the entries with a template or
    a status other than [rest], [completedWorkouts] those with status
    [completed], [totalDuration] sums the duration (0 if absent) of the
    completed ones - and [completionRate] is exactly 0 when [totalWorkouts]
    is 0 and otherwise the binary64 number
    [(completedWorkouts / totalWorkouts) * 100]: never [NaN] or an
    infinity, between 0 and 100, within 2^-46 of
    [100 * completedWorkouts / totalWorkouts], and rounded by [Math.round]
    to the same whole percent. *)
Theorem C3_weekly_statistics workouts :
  List.length workouts = 7%nat ->
  let stats := Calendar.calculateWeeklyStats workouts in
  let rate := Calendar.completionRate64 workouts in
  Calendar.totalWorkouts stats = Spec.totalWorkouts workouts
  /\ Calendar.completedWorkouts stats = Spec.completedWorkouts workouts
  /\ Calendar.totalDuration stats = Spec.totalDuration workouts
  /\ rate = (if 0 <? Spec.totalWorkouts workouts
             then (Number.of_Z (Spec.completedWorkouts workouts)
                   / Number.of_Z (Spec.totalWorkouts workouts) * 100)%float
             else 0%float)
  /\ (Spec.totalWorkouts workouts = 0 -> rate = 0%float)
  /\ exists q,
      Number.valueOf rate = Some q
      /\ (0 <= q)%Q /\ (q <= inject_Z 100)%Q
      /\ (Qabs (q - Spec.completionRate workouts) <= 1 # 70368744177664)%Q
      /\ Math_round (Some q) = Math_round (Some (Spec.completionRate workouts)).
Proof.
  intros Hlen. cbv zeta.
  destruct (statistics_on_exact_numbers workouts) as (Ht & Hc & Hd & _).
  cbv zeta in Ht, Hc, Hd.
  assert (Hrate : Calendar.completionRate64 workouts
                  = if 0 <? Spec.totalWorkouts workouts
                    then (Number.of_Z (Spec.completedWorkouts workouts)
                          / Number.of_Z (Spec.totalWorkouts workouts) * 100)%float
                    else 0%float).
  { unfold Calendar.completionRate64. cbv zeta.
    rewrite totalWorkouts_count.
    now rewrite (length_filter_count Calendar.isCompleted workouts). }
  do 3 (split; [assumption|]).
  split; [exact Hrate|].
  split; [intros H0; rewrite Hrate, H0; reflexivity|].
  rewrite Hrate. unfold Spec.completionRate.
  destruct (completed_le_total workouts) as [Hle H7]. rewrite Hlen in H7.
  apply rate_of_a_week; [exact Hle|exact H7].
Qed.

Lemma C3_weekly_statistics_witness :
  Calendar.totalWorkouts (Calendar.calculateWeeklyStats Samples.threeSessionWeek) = 3
  /\ Calendar.completedWorkouts (Calendar.calculateWeeklyStats Samples.threeSessionWeek)
     = 1
  /\ Math_round (Number.valueOf (Calendar.completionRate64 Samples.threeSessionWeek))
     = Some 33.
Proof.
  destruct (C3_weekly_statistics Samples.threeSessionWeek eq_refl)
    as (Ht & Hc & _ & _ & _ & q & Hq & _ & _ & _ & Hround).
  split; [exact Ht|]. split; [exact Hc|].
  rewrite Hq, Hround. vm_compute. reflexivity.
Defined.

(** One completed session of 45 minutes in the week: one workout, one
    completed, 45 minutes, a rate of 100. *)
Example one_completed_session :
  snd (Calendar.loadWeeklySchedule 0 Samples.noon Samples.wednesday
         [Samples.sessionWith "completed"])
  = Calendar.mkStats 1 1 45 (Some (inject_Z 100)).
Proof. vm_compute. reflexivity. Qed.

(** ** A cancelled session *)

(** C4, as stated, fails: in a week whose only session is cancelled and has
    no template, the day has status [cancelled] and [totalWorkouts] is 1. *)
Lemma C4_cancelled_day_is_counted :
  map Calendar.status
      (fst (Calendar.loadWeeklySchedule 0 Samples.noon Samples.wednesday
              [Samples.sessionWith "cancelled"]))
  = ["rest"; "rest"; "cancelled"; "rest"; "rest"; "rest"; "rest"]
  /\ map Calendar.template
         (fst (Calendar.loadWeeklySchedule 0 Samples.noon Samples.wednesday
                 [Samples.sessionWith "cancelled"]))
     = [None; None; None; None; None; None; None]
  /\ Calendar.totalWorkouts
       (snd (Calendar.loadWeeklySchedule 0 Samples.noon Samples.wednesday
               [Samples.sessionWith "cancelled"])) = 1.
Proof. vm_compute. repeat split; reflexivity. Qed.

(** C4 (amended). For every week with a date matched by a session of stored
    status [cancelled], the day entry of that date has status [cancelled]
    and the day counts toward [totalWorkouts], with or without a template:
    [totalWorkouts] is the count over the days before, plus one, plus the
    count over the days after. *)
Theorem C4_cancelled_day_counts tz now weekDates sessions i date s :
  nth_error weekDates i = Some date ->
  find (Calendar.onDate (JSDate.toISODate date)) sessions = Some s ->
  TrainingSession.status s = "cancelled" ->
  let result := Calendar.deriveWeek tz now weekDates sessions in
  exists before w after,
    fst result = before ++ w :: after
    /\ List.length before = i
    /\ Calendar.status w = "cancelled"
    /\ Calendar.countsAsWorkout w = true
    /\ Calendar.totalWorkouts (snd result)
       = Spec.totalWorkouts before + 1 + Spec.totalWorkouts after.
Proof.
  intros Hnth Hfind Hst. cbv zeta. unfold Calendar.deriveWeek. cbn [fst snd].
  pose proof (weeklySchedule_nth tz now weekDates sessions i) as Hw.
  rewrite Hnth in Hw. cbn [option_map] in Hw.
  destruct (nth_error_split _ _ Hw) as (before & after & Heq & Hlen).
  exists before, (Calendar.workoutOfDay tz now sessions date i), after.
  destruct (calendar_matched_day tz now _ _ i _ Hfind)
    as (_ & _ & _ & _ & _ & _ & _ & _ & _ & Hstatus).
  rewrite Hst in Hstatus. cbn in Hstatus.
  assert (Hcounts : Calendar.countsAsWorkout
                      (Calendar.workoutOfDay tz now sessions date i) = true).
  { unfold Calendar.countsAsWorkout. rewrite Hstatus. apply orb_true_r. }
  repeat (split; [assumption|]).
  unfold Calendar.calculateWeeklyStats. cbv zeta. cbn [Calendar.totalWorkouts].
  rewrite totalWorkouts_count, Heq. unfold Spec.totalWorkouts.
  rewrite count_app. cbn [Spec.count]. rewrite Hstatus.
  destruct (Calendar.template _); cbn [String.eqb Ascii.eqb Bool.eqb negb]; lia.
Qed.

Lemma C4_cancelled_day_counts_witness :
  exists before w after,
    fst (Calendar.deriveWeek 0 Samples.noon (Calendar.getWeekDates 0 Samples.wednesday)
           [Samples.sessionWith "cancelled"]) = before ++ w :: after
    /\ List.length before = 2%nat
    /\ Calendar.status w = "cancelled"
    /\ Calendar.countsAsWorkout w = true
    /\ Calendar.totalWorkouts
         (snd (Calendar.deriveWeek 0 Samples.noon
                 (Calendar.getWeekDates 0 Samples.wednesday)
                 [Samples.sessionWith "cancelled"]))
       = Spec.totalWorkouts before + 1 + Spec.totalWorkouts after.
Proof.
  exact (C4_cancelled_day_counts 0 Samples.noon
           (Calendar.getWeekDates 0 Samples.wednesday)
           [Samples.sessionWith "cancelled"] 2%nat
           (Samples.wednesday + 0 * JSDate.msPerDay)
           (Samples.sessionWith "cancelled") eq_refl eq_refl eq_refl).
Defined.

(** ** A malformed week *)





(** * Further properties of the two screens *)

(** ** Dates and their date strings *)

(** Parsing the date string of a [Date] gives the start of its UTC day. *)
Lemma parseDateOnly_toISODate t :
  JSDate.parseDateOnly (JSDate.toISODate t) = JSDate.Day t * JSDate.msPerDay.
Proof.
  unfold JSDate.parseDateOnly, JSDate.toISODate, JSDate.MakeDate.
  cbn [JSDate.year JSDate.month JSDate.day].
  replace (JSDate.MonthFromTime t + 1 - 1) with (JSDate.MonthFromTime t) by lia.
  rewrite <- (Z.add_0_r (JSDate.DateFromTime t)), MakeDay_current. lia.
Qed.

Lemma toISODate_Day a b :
  JSDate.Day a = JSDate.Day b <-> JSDate.toISODate a = JSDate.toISODate b.
Proof.
  split; intros H.
  - unfold JSDate.toISODate, JSDate.DateFromTime, JSDate.MonthFromTime,
      JSDate.InLeapYear, JSDate.DayWithinYear, JSDate.YearFromTime.
    now rewrite H.
  - apply (f_equal JSDate.parseDateOnly) in H.
    rewrite !parseDateOnly_toISODate in H. unfold JSDate.msPerDay in H. lia.
Qed.

Lemma toISODate_eqb a b :
  JSDate.CalendarDate_eqb (JSDate.toISODate a) (JSDate.toISODate b)
  = (JSDate.Day a =? JSDate.Day b).
Proof.
  destruct (Z.eqb_spec (JSDate.Day a) (JSDate.Day b)) as [H|H].
  - apply CalendarDate_eqb_eq. now apply toISODate_Day.
  - destruct (JSDate.CalendarDate_eqb _ _) eqn:E; [|reflexivity].
    apply CalendarDate_eqb_eq, toISODate_Day in E. contradiction.
Qed.

Lemma Day_start t : JSDate.Day t * JSDate.msPerDay <= t < (JSDate.Day t + 1) * JSDate.msPerDay.
Proof.
  unfold JSDate.Day, JSDate.msPerDay. zdiv.
Qed.

(** ** Moving between weeks *)

Lemma navigateWeek_localDay tz start d :
  JSDate.keepsCalendarDay tz ->
  JSDate.localDay tz (CalendarView.navigateWeek tz start d)
  = JSDate.localDay tz start
    + match d with CalendarView.next => 7 | CalendarView.prev => -7 end.
Proof.
  intros Hk. unfold CalendarView.navigateWeek. now apply localDay_setDate.
Qed.

Lemma navigateWeek_steady tz offset lo hi start d :
  JSDate.steady tz offset lo hi ->
  lo <= start - 7 * JSDate.msPerDay ->
  start + 7 * JSDate.msPerDay <= hi ->
  CalendarView.navigateWeek tz start d
  = start + match d with CalendarView.next => 7 | CalendarView.prev => -7 end
            * JSDate.msPerDay.
Proof.
  intros Hs Hlo Hhi. unfold CalendarView.navigateWeek.
  apply (setDate_steady tz offset lo hi); [exact Hs| |];
    destruct d; unfold JSDate.msPerDay in *; lia.
Qed.

Lemma getDay_add_days tz offset lo hi t k :
  JSDate.steady tz offset lo hi ->
  lo <= t <= hi ->
  lo <= t + k * JSDate.msPerDay <= hi ->
  JSDate.getDay tz (t + k * JSDate.msPerDay) = (JSDate.getDay tz t + k) mod 7.
Proof.
  intros Hs Ht Hk. unfold JSDate.getDay, JSDate.WeekDay.
  destruct (Hs t Ht) as [-> _]. destruct (Hs _ Hk) as [-> _].
  replace (t + k * JSDate.msPerDay + offset)
    with (t + offset + k * JSDate.msPerDay) by lia.
  rewrite Day_add_days. zdiv.
Qed.

(** The local days of a week are those of any week whose start date is a
    whole number of weeks away, moved by as many weeks. *)
Lemma week_localDays_shift tz a b k :
  JSDate.keepsCalendarDay tz ->
  JSDate.localDay tz b = JSDate.localDay tz a + 7 * k ->
  map (JSDate.localDay tz) (Calendar.getWeekDates tz b)
  = map (fun day => day + 7 * k)
        (map (JSDate.localDay tz) (Calendar.getWeekDates tz a)).
Proof.
  intros Hk Hb. rewrite !getWeekDates_localDays by exact Hk.
  rewrite !getDay_localDay, Hb.
  replace ((JSDate.localDay tz a + 7 * k + 4) mod 7)
    with ((JSDate.localDay tz a + 4) mod 7) by zdiv.
  rewrite map_map. apply map_ext. intros i. lia.
Qed.

(** From a day of the week of [day], the offset to Monday is the position
    of the day in the week. *)
Lemma week_member_offset day i :
  0 <= i <= 6 ->
  Spec.mondayOffset ((day + Spec.mondayOffset ((day + 4) mod 7) + i + 4) mod 7) = - i.
Proof.
  intros Hi. unfold Spec.mondayOffset.
  destruct (Z.eqb_spec ((day + 4) mod 7) 0) as [H0|H0];
    match goal with
    | |- context [?a mod 7 =? 0] => destruct (Z.eqb_spec (a mod 7) 0)
    end; zdiv.
Qed.

Lemma weekday_member_offset wd i :
  0 <= wd <= 6 ->
  0 <= i <= 6 ->
  Spec.mondayOffset ((wd + (Spec.mondayOffset wd + i)) mod 7) = - i.
Proof.
  intros Hwd Hi. unfold Spec.mondayOffset.
  destruct (Z.eqb_spec wd 0) as [H0|H0];
    match goal with
    | |- context [?a mod 7 =? 0] => destruct (Z.eqb_spec (a mod 7) 0)
    end; zdiv.
Qed.

(** X1. Where the zone skips no calendar day - daylight saving time
    included - stepping to the next week and back, or to the previous week
    and back, returns to the local calendar day the calendar started from,
    across month and year ends, and the week shown is the same seven days
    again.  Where the zone keeps its offset the date itself is the same;
    across a transition it can be an hour off. *)
Theorem X1_navigateWeek_round_trip tz currentWeekStart :
  JSDate.keepsCalendarDay tz ->
  let there_and_back := fun first second =>
    CalendarView.navigateWeek tz
      (CalendarView.navigateWeek tz currentWeekStart first) second in
  JSDate.localDay tz (there_and_back CalendarView.next CalendarView.prev)
  = JSDate.localDay tz currentWeekStart
  /\ JSDate.localDay tz (there_and_back CalendarView.prev CalendarView.next)
     = JSDate.localDay tz currentWeekStart
  /\ map (JSDate.localDay tz)
         (Calendar.getWeekDates tz (there_and_back CalendarView.next CalendarView.prev))
     = map (JSDate.localDay tz) (Calendar.getWeekDates tz currentWeekStart)
  /\ map (JSDate.localDay tz)
         (Calendar.getWeekDates tz (there_and_back CalendarView.prev CalendarView.next))
     = map (JSDate.localDay tz) (Calendar.getWeekDates tz currentWeekStart)
  /\ (forall offset lo hi,
         JSDate.steady tz offset lo hi ->
         lo <= currentWeekStart - 14 * JSDate.msPerDay ->
         currentWeekStart + 14 * JSDate.msPerDay <= hi ->
         there_and_back CalendarView.next CalendarView.prev = currentWeekStart
         /\ there_and_back CalendarView.prev CalendarView.next = currentWeekStart).
Proof.
  intros Hk. cbv zeta.
  assert (Hnp : JSDate.localDay tz
                  (CalendarView.navigateWeek tz
                     (CalendarView.navigateWeek tz currentWeekStart CalendarView.next)
                     CalendarView.prev)
                = JSDate.localDay tz currentWeekStart)
    by (rewrite !navigateWeek_localDay by exact Hk; lia).
  assert (Hpn : JSDate.localDay tz
                  (CalendarView.navigateWeek tz
                     (CalendarView.navigateWeek tz currentWeekStart CalendarView.prev)
                     CalendarView.next)
                = JSDate.localDay tz currentWeekStart)
    by (rewrite !navigateWeek_localDay by exact Hk; lia).
  split; [exact Hnp|]. split; [exact Hpn|].
  split; [|split].
  - rewrite (week_localDays_shift tz currentWeekStart _ 0 Hk) by (rewrite Hnp; lia).
    rewrite map_map. erewrite map_ext; [reflexivity|]. intros x. cbn beta. lia.
  - rewrite (week_localDays_shift tz currentWeekStart _ 0 Hk) by (rewrite Hpn; lia).
    rewrite map_map. erewrite map_ext; [reflexivity|]. intros x. cbn beta. lia.
  - intros offset lo hi Hs Hlo Hhi. unfold JSDate.msPerDay in Hlo, Hhi.
    rewrite (navigateWeek_steady tz offset lo hi currentWeekStart)
      by (try exact Hs; unfold JSDate.msPerDay; lia).
    rewrite (navigateWeek_steady tz offset lo hi currentWeekStart)
      by (try exact Hs; unfold JSDate.msPerDay; lia).
    rewrite !(navigateWeek_steady tz offset lo hi)
      by (try exact Hs; unfold JSDate.msPerDay; lia).
    unfold JSDate.msPerDay. split; lia.
Qed.

Lemma X1_navigateWeek_round_trip_witness :
  JSDate.localDay Samples.newYork
    (CalendarView.navigateWeek Samples.newYork
       (CalendarView.navigateWeek Samples.newYork Samples.marchWednesday
                                  CalendarView.next)
       CalendarView.prev)
  = JSDate.localDay Samples.newYork Samples.marchWednesday.
Proof.
  exact (proj1 (X1_navigateWeek_round_trip Samples.newYork Samples.marchWednesday
                  keepsCalendarDay_newYork)).
Defined.

(** From Sunday 2024-03-03, 02:30 in New York, the next week is the Sunday
    the clocks skip 02:30 on: the step lands on 03:30, and the step back
    keeps that hour. *)
Example round_trip_across_a_transition :
  CalendarView.navigateWeek Samples.newYork
    (CalendarView.navigateWeek Samples.newYork 1709451000000 CalendarView.next)
    CalendarView.prev
  = 1709451000000 + JSDate.msPerHour.
Proof. vm_compute. reflexivity. Qed.

(** X2. Where the zone skips no calendar day, the week shown after a step
    is the week shown before with every local calendar day moved by seven,
    forward or backward: no day is skipped or shown twice between
    neighbouring weeks.  Where the zone keeps its offset every date moves
    by exactly seven times 86400000 ms. *)
Theorem X2_navigateWeek_moves_week tz currentWeekStart d :
  JSDate.keepsCalendarDay tz ->
  let step := match d with CalendarView.next => 7 | CalendarView.prev => -7 end in
  map (JSDate.localDay tz)
      (Calendar.getWeekDates tz (CalendarView.navigateWeek tz currentWeekStart d))
  = map (fun day => day + step)
        (map (JSDate.localDay tz) (Calendar.getWeekDates tz currentWeekStart))
  /\ (forall offset lo hi,
         JSDate.steady tz offset lo hi ->
         lo <= currentWeekStart - 13 * JSDate.msPerDay ->
         currentWeekStart + 13 * JSDate.msPerDay <= hi ->
         Calendar.getWeekDates tz (CalendarView.navigateWeek tz currentWeekStart d)
         = map (fun date => date + step * JSDate.msPerDay)
               (Calendar.getWeekDates tz currentWeekStart)).
Proof.
  intros Hk. cbv zeta. split.
  - rewrite (week_localDays_shift tz currentWeekStart _
               (match d with CalendarView.next => 1 | CalendarView.prev => -1 end) Hk)
      by (rewrite navigateWeek_localDay by exact Hk; destruct d; lia).
    apply map_ext. intros x. destruct d; lia.
  - intros offset lo hi Hs Hlo Hhi. unfold JSDate.msPerDay in Hlo, Hhi.
    rewrite (navigateWeek_steady tz offset lo hi)
      by (try exact Hs; unfold JSDate.msPerDay; lia).
    rewrite !(getWeekDates_steady tz offset lo hi)
      by (try exact Hs; destruct d; unfold JSDate.msPerDay; lia).
    rewrite map_map.
    rewrite (getDay_add_days tz offset lo hi)
      by (try exact Hs; destruct d; unfold JSDate.msPerDay; lia).
    pose proof (getDay_range tz currentWeekStart) as Hwd.
    replace ((JSDate.getDay tz currentWeekStart
              + match d with CalendarView.next => 7 | CalendarView.prev => -7 end) mod 7)
      with (JSDate.getDay tz currentWeekStart) by (destruct d; zdiv).
    apply map_ext. intros i. lia.
Qed.

Lemma X2_navigateWeek_moves_week_witness :
  map (JSDate.localDay Samples.newYork)
      (Calendar.getWeekDates Samples.newYork
         (CalendarView.navigateWeek Samples.newYork Samples.marchWednesday
                                    CalendarView.next))
  = map (fun day => day + 7)
        (map (JSDate.localDay Samples.newYork)
             (Calendar.getWeekDates Samples.newYork Samples.marchWednesday)).
Proof.
  exact (proj1 (X2_navigateWeek_moves_week Samples.newYork Samples.marchWednesday
                  CalendarView.next keepsCalendarDay_newYork)).
Defined.

(** X3. Where the zone skips no calendar day, the week does not depend on
    which of its days it is built from: [getWeekDates] of any date of a
    week gives the same seven local calendar days again.  Where the zone
    keeps its offset it gives the same seven dates. *)
Theorem X3_week_of_a_member tz startDate :
  JSDate.keepsCalendarDay tz ->
  Forall (fun date =>
            map (JSDate.localDay tz) (Calendar.getWeekDates tz date)
            = map (JSDate.localDay tz) (Calendar.getWeekDates tz startDate))
         (Calendar.getWeekDates tz startDate)
  /\ (forall offset lo hi,
         JSDate.steady tz offset lo hi ->
         lo <= startDate - 12 * JSDate.msPerDay ->
         startDate + 12 * JSDate.msPerDay <= hi ->
         Forall (fun date =>
                   Calendar.getWeekDates tz date = Calendar.getWeekDates tz startDate)
                (Calendar.getWeekDates tz startDate)).
Proof.
  intros Hk. split.
  - assert (Hday : Forall (fun day =>
                             map (fun i => day + Spec.mondayOffset ((day + 4) mod 7) + i)
                                 [0; 1; 2; 3; 4; 5; 6]
                             = map (JSDate.localDay tz)
                                   (Calendar.getWeekDates tz startDate))
                          (map (JSDate.localDay tz)
                               (Calendar.getWeekDates tz startDate))).
    { rewrite getWeekDates_localDays by exact Hk. rewrite getDay_localDay.
      set (day := JSDate.localDay tz startDate).
      cbn [map].
      repeat constructor;
        match goal with
        | |- context [Spec.mondayOffset ((day + ?off + ?i + 4) mod 7)] =>
            rewrite (week_member_offset day i) by lia
        end;
        repeat (apply f_equal2; [lia|]); reflexivity. }
    rewrite Forall_map in Hday. eapply Forall_impl; [|exact Hday].
    intros date Hdate. cbn beta in Hdate.
    rewrite (getWeekDates_localDays tz date Hk), getDay_localDay. exact Hdate.
  - intros offset lo hi Hs Hlo Hhi. unfold JSDate.msPerDay in Hlo, Hhi.
    pose proof (getDay_range tz startDate) as Hwd.
    destruct (mondayOffset_range _ Hwd) as [Hoff _].
    assert (Hmember : forall i, 0 <= i <= 6 ->
               Calendar.getWeekDates tz
                 (startDate + (Spec.mondayOffset (JSDate.getDay tz startDate) + i)
                              * JSDate.msPerDay)
               = Calendar.getWeekDates tz startDate).
    { intros i Hi.
      rewrite !(getWeekDates_steady tz offset lo hi)
        by (try exact Hs; unfold JSDate.msPerDay; lia).
      rewrite (getDay_add_days tz offset lo hi)
        by (try exact Hs; unfold JSDate.msPerDay; lia).
      rewrite (weekday_member_offset _ i Hwd Hi).
      apply map_ext. intros j. lia. }
    set (sameWeek := fun date =>
                       Calendar.getWeekDates tz date = Calendar.getWeekDates tz startDate).
    rewrite (getWeekDates_steady tz offset lo hi)
      by (try exact Hs; unfold JSDate.msPerDay; lia).
    cbn [map].
    repeat constructor; unfold sameWeek; apply Hmember; lia.
Qed.

Lemma X3_week_of_a_member_witness :
  Forall (fun date =>
            map (JSDate.localDay Samples.newYork)
                (Calendar.getWeekDates Samples.newYork date)
            = map (JSDate.localDay Samples.newYork)
                  (Calendar.getWeekDates Samples.newYork Samples.marchWednesday))
         (Calendar.getWeekDates Samples.newYork Samples.marchWednesday).
Proof.
  exact (proj1 (X3_week_of_a_member Samples.newYork Samples.marchWednesday
                  keepsCalendarDay_newYork)).
Defined.

(** X4. While the zone keeps its offset from 13 days before today to 13
    days after, [isCurrentWeek] holds for the week built from today itself,
    fails after one step in either direction, and holds again after
    stepping back; for a week within those days it holds exactly when the
    UTC day of today is one of the seven UTC days of the dates of the
    week. *)
Theorem X4_isCurrentWeek tz offset lo hi today :
  JSDate.steady tz offset lo hi ->
  lo <= today - 13 * JSDate.msPerDay ->
  today + 13 * JSDate.msPerDay <= hi ->
  CalendarView.isCurrentWeek tz today today = true
  /\ CalendarView.isCurrentWeek tz today
       (CalendarView.navigateWeek tz today CalendarView.next) = false
  /\ CalendarView.isCurrentWeek tz today
       (CalendarView.navigateWeek tz today CalendarView.prev) = false
  /\ CalendarView.isCurrentWeek tz today
       (CalendarView.navigateWeek tz
          (CalendarView.navigateWeek tz today CalendarView.next)
          CalendarView.prev) = true
  /\ (forall currentWeekStart,
         lo <= currentWeekStart - 6 * JSDate.msPerDay ->
         currentWeekStart + 6 * JSDate.msPerDay <= hi ->
         let monday := currentWeekStart
                       + Spec.mondayOffset (JSDate.getDay tz currentWeekStart)
                         * JSDate.msPerDay in
         CalendarView.isCurrentWeek tz today currentWeekStart
         = (JSDate.Day monday <=? JSDate.Day today)
           && (JSDate.Day today <=? JSDate.Day monday + 6)).
Proof.
  intros Hs Hlo Hhi. unfold JSDate.msPerDay in Hlo, Hhi.
  assert (Hrange : forall start,
             lo <= start - 6 * JSDate.msPerDay ->
             start + 6 * JSDate.msPerDay <= hi ->
             CalendarView.isCurrentWeek tz today start
             = (JSDate.Day start + Spec.mondayOffset (JSDate.getDay tz start)
                <=? JSDate.Day today)
               && (JSDate.Day today
                   <=? JSDate.Day start + Spec.mondayOffset (JSDate.getDay tz start) + 6)).
  { intros start Hl Hh. unfold CalendarView.isCurrentWeek. cbv zeta.
    rewrite (getWeekDates_steady tz offset lo hi) by assumption.
    cbn [map existsb].
    rewrite !toISODate_eqb, !Day_add_days.
    set (m := Spec.mondayOffset (JSDate.getDay tz start)).
    repeat match goal with
           | |- context [?a =? ?b] => destruct (Z.eqb_spec a b)
           end;
      cbn [orb];
      repeat match goal with
             | |- context [?a <=? ?b] => destruct (Z.leb_spec a b)
             end;
      cbn [andb]; try reflexivity; lia. }
  pose proof (getDay_range tz today) as Hwd.
  destruct (mondayOffset_range _ Hwd) as [Hoff _].
  assert (Hnext : JSDate.getDay tz (today + 7 * JSDate.msPerDay) = JSDate.getDay tz today).
  { rewrite (getDay_add_days tz offset lo hi)
      by (try exact Hs; unfold JSDate.msPerDay; lia). zdiv. }
  assert (Hprev : JSDate.getDay tz (today + -7 * JSDate.msPerDay) = JSDate.getDay tz today).
  { rewrite (getDay_add_days tz offset lo hi)
      by (try exact Hs; unfold JSDate.msPerDay; lia). zdiv. }
  split; [rewrite Hrange by (unfold JSDate.msPerDay; lia);
          apply andb_true_intro; split; apply Z.leb_le; lia|].
  split; [|split; [|split]].
  - rewrite (navigateWeek_steady tz offset lo hi)
      by (try exact Hs; unfold JSDate.msPerDay; lia).
    rewrite Hrange by (unfold JSDate.msPerDay; lia).
    rewrite Hnext, Day_add_days.
    apply andb_false_iff. left. apply Z.leb_gt. lia.
  - rewrite (navigateWeek_steady tz offset lo hi)
      by (try exact Hs; unfold JSDate.msPerDay; lia).
    rewrite Hrange by (unfold JSDate.msPerDay; lia).
    rewrite Hprev, Day_add_days.
    apply andb_false_iff. right. apply Z.leb_gt. lia.
  - rewrite (navigateWeek_steady tz offset lo hi today)
      by (try exact Hs; unfold JSDate.msPerDay; lia).
    unfold CalendarView.navigateWeek.
    rewrite (setDate_steady tz offset lo hi (today + 7 * JSDate.msPerDay) (-7) Hs)
      by (unfold JSDate.msPerDay; lia).
    replace (today + 7 * JSDate.msPerDay + -7 * JSDate.msPerDay) with today by lia.
    rewrite Hrange by (unfold JSDate.msPerDay; lia).
    apply andb_true_intro; split; apply Z.leb_le; lia.
  - intros start Hl Hh. cbv zeta. rewrite Hrange by assumption.
    now rewrite Day_add_days.
Qed.

Lemma X4_isCurrentWeek_witness :
  CalendarView.isCurrentWeek Samples.newYork Samples.wednesday Samples.wednesday = true
  /\ CalendarView.isCurrentWeek Samples.newYork Samples.wednesday
       (CalendarView.navigateWeek Samples.newYork Samples.wednesday CalendarView.next)
     = false.
Proof.
  destruct (X4_isCurrentWeek Samples.newYork (-18000000)
              (Samples.wednesday - 13 * JSDate.msPerDay)
              (Samples.wednesday + 13 * JSDate.msPerDay) Samples.wednesday
              (steady_newYork_winter (Samples.wednesday - 13 * JSDate.msPerDay)
                 (Samples.wednesday + 13 * JSDate.msPerDay) eq_refl)
              (Z.le_refl _) (Z.le_refl _)) as (Hthis & Hnext & _).
  split; [exact Hthis|exact Hnext].
Defined.

(** Across a transition the next week can pass for the current one: in
    London, at 00:30 of Sunday 2024-03-31, an hour before the clocks go
    forward, the Monday of the next week still has the UTC date of
    today. *)
Example next_week_passes_for_current :
  CalendarView.isCurrentWeek Samples.london 1711845000000
    (CalendarView.navigateWeek Samples.london 1711845000000 CalendarView.next)
  = true.
Proof. vm_compute. reflexivity. Qed.

(** ** What every calendar entry satisfies *)

Lemma Forall_weeklySchedule tz now week ss (P : Calendar.WeeklyWorkout -> Prop) :
  (forall d i, P (Calendar.workoutOfDay tz now ss d i)) ->
  Forall P (Calendar.weeklySchedule tz now week ss).
Proof.
  intros H. apply (Forall2_Forall_r _ week). now apply weeklySchedule_Forall2.
Qed.

Lemma Forall_weeklyData tz now tpls week ss (P : Dashboard.WeeklyWorkout -> Prop) :
  (forall d i, P (Dashboard.workoutOfDay tz now tpls ss d i)) ->
  Forall P (Dashboard.weeklyData tz now tpls week ss).
Proof.
  intros H. apply (Forall2_Forall_r _ week). now apply weeklyData_Forall2.
Qed.

(** X5. Every entry of the training calendar, for any week and any
    sessions: its status is never [no_show]; its flag [missed] is never
    set; its flag [completed] is set exactly when its status is
    [completed]; an entry with a template has a session identifier; and an
    entry without a session identifier is a bare rest day. *)
Theorem X5_calendar_entry_invariants tz now weekDates sessions :
  Forall (fun w =>
            Calendar.status w <> "no_show"
            /\ Calendar.missed w = false
            /\ (Calendar.completed w = true <-> Calendar.status w = "completed")
            /\ (Calendar.template w <> None -> Calendar.sessionId w <> None)
            /\ (Calendar.sessionId w = None ->
                Calendar.status w = "rest" /\ Calendar.template w = None
                /\ Calendar.scheduledTime w = None
                /\ Calendar.duration_minutes w = None /\ Calendar.notes w = None))
         (Calendar.weeklySchedule tz now weekDates sessions).
Proof.
  apply Forall_weeklySchedule. intros d i.
  destruct (find (Calendar.onDate (JSDate.toISODate d)) sessions) as [s|] eqn:Hfind.
  - destruct (calendar_matched_day tz now _ _ i _ Hfind)
      as (_ & _ & _ & Hm & Hid & _ & _ & _ & Hc & Hst).
    cbv zeta in Hst, Hc. rewrite Hm, Hid, Hc, Hst.
    set (st := TrainingSession.status s).
    split; [|split; [reflexivity|split; [|split; [congruence|discriminate]]]].
    + destruct (String.eqb_spec st "scheduled") as [E|E];
        [destruct (JSDate.lt _ now); [discriminate|rewrite E; discriminate]|].
      destruct (String.eqb_spec st "no_show"); [discriminate|assumption].
    + rewrite String.eqb_eq.
      destruct (String.eqb_spec st "scheduled") as [E|E];
        [rewrite E; destruct (JSDate.lt _ now); split; discriminate|].
      destruct (String.eqb_spec st "no_show") as [E'|E'];
        [rewrite E'; split; discriminate|reflexivity].
  - rewrite (calendar_rest_day tz now _ _ i Hfind). cbn.
    split; [discriminate|]. split; [reflexivity|].
    split; [split; discriminate|]. split; [congruence|auto 6].
Qed.

(** X6. If every session has one of the four stored statuses, every entry
    of the training calendar has one of the five statuses its type
    declares. *)
Theorem X6_calendar_status_domain tz now weekDates sessions :
  Forall (fun s => In (TrainingSession.status s) storedStatuses) sessions ->
  Forall (fun w => In (Calendar.status w) dayStatuses)
         (Calendar.weeklySchedule tz now weekDates sessions).
Proof.
  intros Hdom. apply Forall_weeklySchedule. intros d i.
  destruct (find (Calendar.onDate (JSDate.toISODate d)) sessions) as [s|] eqn:Hfind.
  - destruct (calendar_matched_day tz now _ _ i _ Hfind)
      as (_ & _ & _ & _ & _ & _ & _ & _ & _ & ->).
    apply find_some in Hfind. destruct Hfind as [Hin _].
    rewrite Forall_forall in Hdom. specialize (Hdom s Hin).
    unfold storedStatuses in Hdom. cbn [In] in Hdom.
    destruct Hdom as [<-|[<-|[<-|[<-|[]]]]]; cbn [String.eqb Ascii.eqb Bool.eqb];
      try destruct (JSDate.lt _ now); unfold dayStatuses; cbn [In]; auto 6.
  - rewrite (calendar_rest_day tz now _ _ i Hfind). unfold dayStatuses. cbn. auto 6.
Qed.

Lemma X6_calendar_status_domain_witness :
  Forall (fun w => In (Calendar.status w) dayStatuses)
         (Calendar.weeklySchedule 0 Samples.noon
            (Calendar.getWeekDates 0 Samples.wednesday)
            [Samples.sessionWith "no_show"]).
Proof.
  apply (X6_calendar_status_domain 0 Samples.noon
           (Calendar.getWeekDates 0 Samples.wednesday)
           [Samples.sessionWith "no_show"]).
  apply Forall_cons; [|apply Forall_nil].
  right; right; left; reflexivity.
Defined.

(** ** Statistics as the screen shows them *)

(** X7. For every list of entries the statistics are in range: the
    completed workouts are at most the total workouts, which are at most
    the entries; the completion rate lies between 0 and 100, and so does
    the rounded success rate the screen prints.  A week of
    [loadWeeklySchedule] has at most 7 workouts. *)
Theorem X7_statistics_in_range tz now currentWeekStart sessions workouts :
  let stats := Calendar.calculateWeeklyStats workouts in
  (0 <= Calendar.completedWorkouts stats <= Calendar.totalWorkouts stats
   /\ Calendar.totalWorkouts stats <= Z.of_nat (List.length workouts))
  /\ (exists rate, Calendar.completionRate stats = Some rate
                   /\ (0 <= rate)%Q /\ (rate <= inject_Z 100)%Q)
  /\ (exists shown, CalendarView.successRate stats = Some shown /\ 0 <= shown <= 100)
  /\ Calendar.totalWorkouts
       (snd (Calendar.loadWeeklySchedule tz now currentWeekStart sessions)) <= 7.
Proof.
  cbv zeta.
  assert (Htotal : forall ws,
             Calendar.totalWorkouts (Calendar.calculateWeeklyStats ws)
             = Spec.totalWorkouts ws)
    by (intros ws; apply totalWorkouts_count).
  assert (Hdone : Calendar.completedWorkouts (Calendar.calculateWeeklyStats workouts)
                  = Spec.completedWorkouts workouts)
    by apply length_filter_count.
  assert (Hle : 0 <= Spec.completedWorkouts workouts <= Spec.totalWorkouts workouts).
  { split; [apply count_range|]. apply count_le_impl. intros w Hw.
    apply String.eqb_eq in Hw. rewrite Hw. now destruct (Calendar.template w). }
  assert (Hlen : forall ws, Spec.totalWorkouts ws <= Z.of_nat (List.length ws))
    by (intros ws; apply count_range).
  assert (Hrate : exists rate,
             Calendar.completionRate (Calendar.calculateWeeklyStats workouts) = Some rate
             /\ (0 <= rate)%Q /\ (rate <= inject_Z 100)%Q).
  { unfold Calendar.calculateWeeklyStats. cbv zeta. cbn [Calendar.completionRate].
    rewrite totalWorkouts_count.
    change (Z.of_nat (List.length (filter Calendar.isCompleted workouts)))
      with (Calendar.completedWorkouts (Calendar.calculateWeeklyStats workouts)).
    rewrite Hdone. unfold js_div.
    destruct (Spec.totalWorkouts workouts) as [|t|t] eqn:Ht; cbn [Z.ltb Z.compare].
    - eexists. split; [reflexivity|]. split; unfold Qle; cbn; lia.
    - change (Qeq_bool (inject_Z (Z.pos t)) 0) with false. cbv iota.
      eexists. split; [reflexivity|].
      unfold Qle, Qmult, Qdiv, Qinv, inject_Z. cbn. split; nia.
    - eexists. split; [reflexivity|]. split; unfold Qle; cbn; lia. }
  split; [rewrite Htotal, Hdone; split; [exact Hle|apply Hlen]|].
  split; [exact Hrate|].
  split.
  - destruct Hrate as (rate & Hr & H0 & H100).
    unfold CalendarView.successRate, Math_round. rewrite Hr.
    eexists. split; [reflexivity|]. clear Hr. destruct rate as [n d]. split.
    + change 0 with (Qfloor (inject_Z 0)). apply Qfloor_resp_le.
      unfold Qle, Qplus, inject_Z in *. cbn [Qnum Qden] in *.
      rewrite ?Pos2Z.inj_mul. lia.
    + change 100 with (Qfloor (inject_Z 100 + (1 # 2))). apply Qfloor_resp_le.
      unfold Qle, Qplus, inject_Z in *. cbn [Qnum Qden] in *.
      rewrite ?Pos2Z.inj_mul. lia.
  - unfold Calendar.loadWeeklySchedule, Calendar.deriveWeek. cbn [snd].
    rewrite Htotal.
    pose proof (Hlen (Calendar.weeklySchedule tz now
                        (Calendar.getWeekDates tz currentWeekStart) sessions)) as H7.
    rewrite weeklySchedule_length, getWeekDates_length in H7. exact H7.
Qed.

Lemma count_split {A : Type} (p q r : A -> bool) (l : list A) :
  (forall x, p x = q x || r x) -> (forall x, q x && r x = false) ->
  Spec.count p l = Spec.count q l + Spec.count r l.
Proof.
  intros Hp Hd. induction l as [|x l IH]; cbn [Spec.count]; [reflexivity|].
  rewrite Hp. specialize (Hd x).
  destruct (q x), (r x); cbn [andb orb] in *; try discriminate; lia.
Qed.

(** X8. The statistics count more than the list shows as workouts:
    [totalWorkouts] is the number of entries [renderWorkoutItem] treats as a
    workout plus the number of cancelled entries without a template, which
    the list names "Cancelled Session"; the entries not counted are the
    ones named "Rest Day". *)
Theorem X8_counted_and_shown workouts :
  let bareCancelled := fun w =>
    negb (CalendarView.hasWorkout w) && String.eqb (Calendar.status w) "cancelled" in
  Calendar.totalWorkouts (Calendar.calculateWeeklyStats workouts)
  = Spec.count CalendarView.hasWorkout workouts + Spec.count bareCancelled workouts
  /\ Forall (fun w =>
               (bareCancelled w = true -> CalendarView.workoutName w = "Cancelled Session")
               /\ (Calendar.countsAsWorkout w = false ->
                   CalendarView.workoutName w = "Rest Day"))
            workouts.
Proof.
  cbv zeta. split.
  - unfold Calendar.calculateWeeklyStats. cbv zeta. cbn [Calendar.totalWorkouts].
    rewrite length_filter_count. apply count_split; intros w;
      unfold Calendar.countsAsWorkout, CalendarView.hasWorkout;
      destruct (Calendar.template w);
      destruct (String.eqb_spec (Calendar.status w) "rest") as [E|E];
      try rewrite E; cbn; try reflexivity;
      destruct (String.eqb (Calendar.status w) "cancelled"); reflexivity.
  - apply Forall_forall. intros w _.
    unfold CalendarView.workoutName, Calendar.countsAsWorkout, CalendarView.hasWorkout.
    destruct (Calendar.template w);
      destruct (String.eqb_spec (Calendar.status w) "rest") as [E|E];
      try rewrite E; cbn; split; intros H; try discriminate; try reflexivity.
    destruct (String.eqb (Calendar.status w) "cancelled"); [reflexivity|discriminate].
Qed.

(** ** Pressing a day of the calendar *)

(** X9. Outside rearrange mode, with session identifiers that are not
    empty and stored statuses among the four of the data model, pressing an
    entry of the derived week leaves the selection alone and does nothing on
    a day without session, opens [/start-workout/<session id>] on a day
    whose status is [scheduled], and opens [/workout-detail/<session id>] on
    every other day with a session; it never opens a template page. *)
Theorem X9_press_derived_entry tz now sessions weeklyWorkouts selectedItem date i index :
  Forall (fun s => TrainingSession.id s <> "") sessions ->
  Forall (fun s => In (TrainingSession.status s) storedStatuses) sessions ->
  let workout := Calendar.workoutOfDay tz now sessions date i in
  CalendarView.handleWorkoutPress weeklyWorkouts false selectedItem workout index
  = (selectedItem,
     match find (Calendar.onDate (JSDate.toISODate date)) sessions with
     | None => NoEffect
     | Some s =>
         if String.eqb (Calendar.status workout) "scheduled"
         then Push ("/start-workout/" ++ TrainingSession.id s)
         else Push ("/workout-detail/" ++ TrainingSession.id s)
     end).
Proof.
  intros Hid Hdom. cbv zeta. unfold CalendarView.handleWorkoutPress.
  destruct (find (Calendar.onDate (JSDate.toISODate date)) sessions) as [s|] eqn:Hfind.
  - destruct (calendar_matched_day tz now _ _ i _ Hfind)
      as (_ & _ & _ & _ & Hsid & _ & _ & _ & _ & Hst).
    cbv zeta in Hst. rewrite Hsid, Hst. cbn [truthy interpolate].
    apply find_some in Hfind. destruct Hfind as [Hin _].
    rewrite Forall_forall in Hid, Hdom.
    specialize (Hid s Hin). specialize (Hdom s Hin).
    apply String.eqb_neq in Hid. rewrite Hid. cbn [negb].
    unfold storedStatuses in Hdom. cbn [In] in Hdom.
    destruct Hdom as [<-|[<-|[<-|[<-|[]]]]]; cbn [String.eqb Ascii.eqb Bool.eqb];
      try destruct (JSDate.lt _ now); reflexivity.
  - rewrite (calendar_rest_day tz now _ _ i Hfind). reflexivity.
Qed.

Lemma X9_press_derived_entry_witness :
  CalendarView.handleWorkoutPress [] false None
    (Calendar.workoutOfDay 0 Samples.noon [Samples.sessionWith "scheduled"]
                           Samples.wednesday 2) 2
  = (None, Push "/start-workout/s1").
Proof.
  apply (X9_press_derived_entry 0 Samples.noon [Samples.sessionWith "scheduled"]
           [] None Samples.wednesday 2 2).
  - apply Forall_cons; [discriminate|apply Forall_nil].
  - apply Forall_cons; [left; reflexivity|apply Forall_nil].
Defined.

Lemma pressAll_selection workouts presses :
  Forall (fun i => (i < List.length workouts)%nat) presses ->
  fst (CalendarView.pressAll workouts None presses)
  = (if Nat.even (List.length presses) then None else Some (last presses 0%nat))
  /\ forall k, (k < List.length workouts)%nat ->
       fst (CalendarView.pressAll workouts (Some k) presses)
       = match presses with
         | [] => Some k
         | _ :: rest =>
             if Nat.even (List.length rest) then None else Some (last rest 0%nat)
         end.
Proof.
  induction 1 as [|p rest Hp Hrest [IHnone IHsome]]; [split; reflexivity|].
  destruct (nth_error workouts p) as [w|] eqn:Hw;
    [|apply nth_error_None in Hw; lia].
  split.
  - cbn [CalendarView.pressAll]. rewrite Hw. cbn [CalendarView.handleWorkoutPress].
    pose proof (IHsome p Hp) as Hsel.
    destruct (CalendarView.pressAll workouts (Some p) rest) as [final effects].
    cbn [fst] in *. rewrite Hsel.
    destruct rest as [|q [|r rest']]; reflexivity.
  - intros k Hk. cbn [CalendarView.pressAll]. rewrite Hw.
    cbn [CalendarView.handleWorkoutPress].
    destruct (nth_error workouts k) as [other|] eqn:Hother;
      [|apply nth_error_None in Hother; lia].
    destruct (Nat.eqb k p);
      destruct (CalendarView.pressAll workouts None rest) as [final effects];
      cbn [fst] in *; exact IHnone.
Qed.

Lemma pressAll_effects workouts presses selected :
  Forall (fun i => (i < List.length workouts)%nat) presses ->
  match selected with Some k => (k < List.length workouts)%nat | None => True end ->
  Forall (fun e => e = NoEffect \/ exists message, e = Alert "Rearrange" message)
         (snd (CalendarView.pressAll workouts selected presses))
  /\ List.length (snd (CalendarView.pressAll workouts selected presses))
     = List.length presses.
Proof.
  intros Hall. revert selected.
  induction Hall as [|p rest Hp Hrest IH]; intros selected Hsel;
    [split; [constructor|reflexivity]|].
  destruct (nth_error workouts p) as [w|] eqn:Hw;
    [|apply nth_error_None in Hw; lia].
  cbn [CalendarView.pressAll]. rewrite Hw. cbn [CalendarView.handleWorkoutPress].
  destruct selected as [k|].
  - destruct (nth_error workouts k) as [other|] eqn:Hother;
      [|apply nth_error_None in Hother; lia].
    destruct (Nat.eqb k p);
      destruct (IH None I) as [Heff Hlen];
      destruct (CalendarView.pressAll workouts None rest) as [final effects];
      cbn [snd List.length] in *; (split; [constructor; eauto|now rewrite Hlen]).
  - destruct (IH (Some p) Hp) as [Heff Hlen].
    destruct (CalendarView.pressAll workouts (Some p) rest) as [final effects].
    cbn [snd List.length] in *. split; [constructor; auto|now rewrite Hlen].
Qed.

(** X10. In rearrange mode presses on entries of the week only ever select
    and deselect: starting without a selection, after an even number of
    presses nothing is selected and after an odd number the entry pressed
    last is; every press gives either nothing or the "Rearrange" alert,
    never a navigation and never an error. *)
Theorem X10_rearrange_presses workouts presses :
  Forall (fun i => (i < List.length workouts)%nat) presses ->
  fst (CalendarView.pressAll workouts None presses)
  = (if Nat.even (List.length presses) then None else Some (last presses 0%nat))
  /\ Forall (fun e => e = NoEffect \/ exists message, e = Alert "Rearrange" message)
            (snd (CalendarView.pressAll workouts None presses))
  /\ List.length (snd (CalendarView.pressAll workouts None presses))
     = List.length presses.
Proof.
  intros Hall. split.
  - apply (pressAll_selection workouts presses Hall).
  - apply (pressAll_effects workouts presses None Hall I).
Qed.

Lemma X10_rearrange_presses_witness :
  fst (CalendarView.pressAll
         (fst (Calendar.loadWeeklySchedule 0 Samples.noon Samples.wednesday []))
         None [1; 3; 2]%nat)
  = Some 2%nat.
Proof.
  apply (X10_rearrange_presses
           (fst (Calendar.loadWeeklySchedule 0 Samples.noon Samples.wednesday []))
           [1; 3; 2]%nat).
  repeat constructor.
Defined.

(** ** Pressing a day of the dashboard *)

(** X11. For every dashboard entry whatsoever, a press does nothing exactly
    when the day button is disabled, and it never shows the "Info" alert:
    the last branch of [handleDayPress] cannot be reached. *)
Theorem X11_handleDayPress_never_alerts workout :
  (DashboardView.handleDayPress workout = NoEffect
   <-> DashboardView.disabled workout = true)
  /\ (forall title message,
         DashboardView.handleDayPress workout <> Alert title message)
  /\ DashboardView.handleDayPress workout <> TypeError.
Proof.
  unfold DashboardView.handleDayPress, DashboardView.disabled.
  destruct (Dashboard.template workout), (truthy (Dashboard.sessionId workout)),
    (Dashboard.completed workout); cbn [negb andb];
    repeat split; intros; try discriminate; try reflexivity.
Qed.

(** X12. On the dashboard, with session identifiers that are not empty, a
    day of the derived week without session has its button disabled and a
    press does nothing; a day with a session opens
    [/workout-detail/<session id>] when the session is completed and
    [/todays-workout/<session id>] otherwise - the route is always built
    from the session, never from the template. *)
Theorem X12_press_dashboard_day tz now tpls sessions date i :
  Forall (fun s => TrainingSession.id s <> "") sessions ->
  let workout := Dashboard.workoutOfDay tz now tpls sessions date i in
  match find (Dashboard.onDate (JSDate.toISODate date)) sessions with
  | None =>
      DashboardView.disabled workout = true
      /\ DashboardView.handleDayPress workout = NoEffect
  | Some s =>
      DashboardView.disabled workout = false
      /\ DashboardView.handleDayPress workout
         = if String.eqb (TrainingSession.status s) "completed"
           then Push ("/workout-detail/" ++ TrainingSession.id s)
           else Push ("/todays-workout/" ++ TrainingSession.id s)
  end.
Proof.
  intros Hid. cbv zeta.
  destruct (find (Dashboard.onDate (JSDate.toISODate date)) sessions) as [s|] eqn:Hfind.
  - destruct (dashboard_matched_day tz now tpls _ _ i _ Hfind)
      as (_ & _ & Ht & Hsid & _ & Hc & _).
    cbv zeta in Hc.
    unfold DashboardView.disabled, DashboardView.handleDayPress.
    rewrite Ht, Hsid, Hc. cbn [truthy interpolate].
    apply find_some in Hfind. destruct Hfind as [Hin _].
    rewrite Forall_forall in Hid. specialize (Hid s Hin).
    apply String.eqb_neq in Hid. rewrite Hid. cbn [negb andb].
    split; reflexivity.
  - rewrite (dashboard_rest_day tz now tpls _ _ i Hfind). split; reflexivity.
Qed.

Lemma X12_press_dashboard_day_witness :
  DashboardView.disabled
    (Dashboard.workoutOfDay 0 Samples.noon [] [Samples.sessionWith "completed"]
                            Samples.wednesday 2) = false
  /\ DashboardView.handleDayPress
       (Dashboard.workoutOfDay 0 Samples.noon [] [Samples.sessionWith "completed"]
                               Samples.wednesday 2)
     = Push "/workout-detail/s1".
Proof.
  apply (X12_press_dashboard_day 0 Samples.noon [] [Samples.sessionWith "completed"]
           Samples.wednesday 2).
  apply Forall_cons; [discriminate|apply Forall_nil].
Defined.

Lemma getWorkoutCount_mapDates tz now tpls sessions week index :
  DashboardView.getWorkoutCount (Dashboard.mapDates tz now tpls sessions week index)
  = Spec.count (fun date =>
                  match find (Dashboard.onDate (JSDate.toISODate date)) sessions with
                  | Some _ => true
                  | None => false
                  end) week.
Proof.
  unfold DashboardView.getWorkoutCount. revert index.
  induction week as [|d week IH]; intros index; [reflexivity|].
  cbn [Dashboard.mapDates filter Spec.count]. specialize (IH (S index)).
  destruct (find (Dashboard.onDate (JSDate.toISODate d)) sessions) as [s|] eqn:Hfind.
  - destruct (dashboard_matched_day tz now tpls _ _ index _ Hfind)
      as (_ & _ & -> & _).
    cbn [List.length]. lia.
  - rewrite (dashboard_rest_day tz now tpls _ _ index Hfind).
    cbn [Dashboard.template]. lia.
Qed.

(** X13. The number the dashboard announces ("You have N workouts this
    week") is the number of dates of the week on which some session falls,
    however many sessions fall on one date; it lies between 0 and 7. *)
Theorem X13_getWorkoutCount tz now tpls today sessions :
  let week := Dashboard.weekDatesOf tz today in
  let shown := DashboardView.getWorkoutCount
                 (Dashboard.loadWeeklyWorkouts tz now tpls today sessions) in
  shown = Spec.count (fun date =>
                        existsb (Dashboard.onDate (JSDate.toISODate date)) sessions)
                     week
  /\ 0 <= shown <= 7.
Proof.
  cbv zeta. unfold Dashboard.loadWeeklyWorkouts, Dashboard.weeklyData.
  rewrite getWorkoutCount_mapDates.
  assert (Hext : forall date,
             match find (Dashboard.onDate (JSDate.toISODate date)) sessions with
             | Some _ => true
             | None => false
             end = existsb (Dashboard.onDate (JSDate.toISODate date)) sessions).
  { intros date. induction sessions as [|s ss IH]; [reflexivity|].
    cbn [find existsb]. destruct (Dashboard.onDate _ s); [reflexivity|exact IH]. }
  rewrite (count_ext _ _ _ Hext). split; [reflexivity|].
  pose proof (count_range
                (fun date => existsb (Dashboard.onDate (JSDate.toISODate date)) sessions)
                (Dashboard.weekDatesOf tz today)) as Hr.
  assert (Hlen : List.length (Dashboard.weekDatesOf tz today) = 7%nat)
    by exact (getWeekDates_length tz today).
  rewrite Hlen in Hr. lia.
Qed.

(** ** The two screens on the same sessions *)

Lemma find_ext_in {A : Type} (p q : A -> bool) (l : list A) :
  (forall x, In x l -> p x = q x) -> find p l = find q l.
Proof.
  induction l as [|a l IH]; intros H; [reflexivity|].
  cbn [find]. rewrite (H a (or_introl eq_refl)).
  destruct (q a); [reflexivity|]. apply IH. intros x Hx. apply H. now right.
Qed.

Lemma find_filter {A : Type} (p keep : A -> bool) (l : list A) :
  (forall x, p x = true -> keep x = true) -> find p (filter keep l) = find p l.
Proof.
  intros H. induction l as [|a l IH]; [reflexivity|].
  cbn [filter find]. destruct (p a) eqn:Hp.
  - rewrite (H a Hp). cbn [find]. now rewrite Hp.
  - destruct (keep a); [cbn [find]; rewrite Hp|]; exact IH.
Qed.

(** On sessions with well-formed dates both screens pick the same session
    for a date string. *)
Lemma screens_find_same sessions ds :
  Forall validSession sessions ->
  find (Dashboard.onDate ds) sessions = find (Calendar.onDate ds) sessions.
Proof.
  intros Hv. apply find_ext_in. intros s Hs.
  rewrite Forall_forall in Hv. specialize (Hv s Hs).
  unfold validSession in Hv. unfold Dashboard.onDate, Dashboard.sDate, Calendar.onDate.
  destruct (TrainingSession.scheduled_date s) as [d|]; [|reflexivity].
  now rewrite toISODate_parseDateOnly.
Qed.

(** X14. When every session's date is a date of the calendar, the training
    calendar and the dashboard show the same thing for the same week and
    sessions as far as both show it: day by day the same label and number,
    the same session identifier and scheduled time, and the same
    [completed] flag. *)
Theorem X14_screens_agree tz now tpls weekDates sessions :
  Forall validSession sessions ->
  let calendar := Calendar.weeklySchedule tz now weekDates sessions in
  let dashboard := Dashboard.weeklyData tz now tpls weekDates sessions in
  map Calendar.dayName calendar = map Dashboard.dayName dashboard
  /\ map Calendar.dayNumber calendar = map Dashboard.dayNumber dashboard
  /\ map Calendar.sessionId calendar = map Dashboard.sessionId dashboard
  /\ map Calendar.scheduledTime calendar = map Dashboard.scheduledTime dashboard
  /\ map Calendar.completed calendar = map Dashboard.completed dashboard.
Proof.
  intros Hv. cbv zeta.
  assert (Hday : forall d i,
             let c := Calendar.workoutOfDay tz now sessions d i in
             let w := Dashboard.workoutOfDay tz now tpls sessions d i in
             Calendar.dayName c = Dashboard.dayName w
             /\ Calendar.dayNumber c = Dashboard.dayNumber w
             /\ Calendar.sessionId c = Dashboard.sessionId w
             /\ Calendar.scheduledTime c = Dashboard.scheduledTime w
             /\ Calendar.completed c = Dashboard.completed w).
  { intros d i. cbv zeta.
    pose proof (screens_find_same sessions (JSDate.toISODate d) Hv) as Hsame.
    destruct (find (Calendar.onDate (JSDate.toISODate d)) sessions) as [s|] eqn:Hc.
    - destruct (calendar_matched_day tz now _ _ i _ Hc)
        as (-> & -> & _ & _ & -> & -> & _ & _ & -> & _).
      destruct (dashboard_matched_day tz now tpls _ _ i _ Hsame)
        as (-> & -> & _ & -> & -> & -> & _).
      repeat split; reflexivity.
    - rewrite (calendar_rest_day tz now _ _ i Hc),
        (dashboard_rest_day tz now tpls _ _ i Hsame).
      repeat split; reflexivity. }
  unfold Calendar.weeklySchedule, Dashboard.weeklyData.
  rewrite forEachDate_spec, mapDates_spec. cbn [app]. rewrite !map_map.
  repeat split; apply map_ext; intros [d i]; apply Hday.
Qed.

Lemma X14_screens_agree_witness :
  map Calendar.sessionId
      (Calendar.weeklySchedule 0 Samples.noon (Calendar.getWeekDates 0 Samples.wednesday)
         [Samples.sessionWith "completed"])
  = map Dashboard.sessionId
        (Dashboard.weeklyData 0 Samples.noon []
           (Calendar.getWeekDates 0 Samples.wednesday)
           [Samples.sessionWith "completed"]).
Proof.
  refine (proj1 (proj2 (proj2
            (X14_screens_agree 0 Samples.noon []
               (Calendar.getWeekDates 0 Samples.wednesday)
               [Samples.sessionWith "completed"] _)))).
  apply Forall_cons; [reflexivity|apply Forall_nil].
Defined.

(** A session dated 2024-02-30 shows what the agreement rests on: the
    dashboard reads the date as 2024-03-01 and shows the session on that
    day, the calendar shows it on no day. *)
Example screens_differ_on_ill_formed_date :
  let s := TrainingSession.mk "s9" (Some (JSDate.mkDate 2024 2 30)) None "scheduled"
                              None None None None None None in
  let friday := Samples.wednesday + 30 * JSDate.msPerDay in
  map Dashboard.sessionId (Dashboard.loadWeeklyWorkouts 0 Samples.noon [] friday [s])
  = [None; None; None; None; Some "s9"; None; None]
  /\ map Calendar.sessionId (fst (Calendar.loadWeeklySchedule 0 Samples.noon friday [s]))
     = [None; None; None; None; None; None; None].
Proof. vm_compute. split; reflexivity. Qed.

Lemma totalWorkouts_matched tz now sessions week index :
  Forall (fun s => In (TrainingSession.status s) storedStatuses) sessions ->
  Z.of_nat (List.length
              (filter Calendar.countsAsWorkout
                      (map (fun p => Calendar.workoutOfDay tz now sessions (fst p) (snd p))
                           (combine week (seq index (List.length week))))))
  = Spec.count (fun date =>
                  match find (Calendar.onDate (JSDate.toISODate date)) sessions with
                  | Some _ => true
                  | None => false
                  end) week.
Proof.
  intros Hdom. revert index.
  induction week as [|d week IH]; intros index; [reflexivity|].
  cbn [List.length seq combine map filter Spec.count fst snd].
  specialize (IH (S index)).
  destruct (find (Calendar.onDate (JSDate.toISODate d)) sessions) as [s|] eqn:Hfind.
  - assert (Hcounts : Calendar.countsAsWorkout
                        (Calendar.workoutOfDay tz now sessions d index) = true).
    { destruct (calendar_matched_day tz now _ _ index _ Hfind)
        as (_ & _ & _ & _ & _ & _ & _ & _ & _ & Hst).
      cbv zeta in Hst. unfold Calendar.countsAsWorkout. rewrite Hst.
      apply find_some in Hfind. destruct Hfind as [Hin _].
      rewrite Forall_forall in Hdom. specialize (Hdom s Hin).
      unfold storedStatuses in Hdom. cbn [In] in Hdom.
      destruct Hdom as [<-|[<-|[<-|[<-|[]]]]]; cbn [String.eqb Ascii.eqb Bool.eqb];
        try destruct (JSDate.lt _ now); apply orb_true_r. }
    rewrite Hcounts. cbn [List.length]. lia.
  - assert (Hcounts : Calendar.countsAsWorkout
                        (Calendar.workoutOfDay tz now sessions d index) = false)
      by (rewrite (calendar_rest_day tz now _ _ index Hfind); reflexivity).
    rewrite Hcounts. lia.
Qed.

(** X15. With well-formed session dates and stored statuses among the four
    of the data model, the number of workouts the dashboard announces for
    the week of a date is [totalWorkouts] of the training calendar for the
    same week and sessions. *)
Theorem X15_workout_counts_agree tz now tpls start sessions :
  Forall validSession sessions ->
  Forall (fun s => In (TrainingSession.status s) storedStatuses) sessions ->
  DashboardView.getWorkoutCount (Dashboard.loadWeeklyWorkouts tz now tpls start sessions)
  = Calendar.totalWorkouts (snd (Calendar.loadWeeklySchedule tz now start sessions)).
Proof.
  intros Hv Hdom.
  unfold Dashboard.loadWeeklyWorkouts, Dashboard.weeklyData,
    Calendar.loadWeeklySchedule, Calendar.deriveWeek, Calendar.calculateWeeklyStats.
  cbv zeta. cbn [snd Calendar.totalWorkouts].
  unfold Calendar.weeklySchedule. rewrite forEachDate_spec. cbn [app].
  rewrite totalWorkouts_matched by exact Hdom.
  rewrite getWorkoutCount_mapDates.
  change (Dashboard.weekDatesOf tz start) with (Calendar.getWeekDates tz start).
  apply count_ext. intros date. now rewrite screens_find_same.
Qed.

Lemma X15_workout_counts_agree_witness :
  DashboardView.getWorkoutCount
    (Dashboard.loadWeeklyWorkouts 0 Samples.noon [] Samples.wednesday
       [Samples.sessionWith "cancelled"])
  = Calendar.totalWorkouts
      (snd (Calendar.loadWeeklySchedule 0 Samples.noon Samples.wednesday
              [Samples.sessionWith "cancelled"])).
Proof.
  apply (X15_workout_counts_agree 0 Samples.noon [] Samples.wednesday
           [Samples.sessionWith "cancelled"]).
  - apply Forall_cons; [reflexivity|apply Forall_nil].
  - apply Forall_cons; [do 3 right; left; reflexivity|apply Forall_nil].
Defined.

(** ** Sessions and the range of the query *)

(** X16. Only sessions dated on one of the seven date strings of the week
    can show: dropping every other session from the input changes neither
    the entries nor the statistics of [loadWeeklySchedule].  The range
    [startDate .. endDate] asked of the session query is the date string of
    the first date to that of the last, and every date string of the week
    lies within it.  The zone is one of constant offset. *)
Theorem X16_sessions_outside_the_week (tz : Z) now currentWeekStart sessions :
  let week := Calendar.getWeekDates tz currentWeekStart in
  let inWeek := fun s =>
    existsb (fun date => Calendar.onDate (JSDate.toISODate date) s) week in
  Calendar.loadWeeklySchedule tz now currentWeekStart (filter inWeek sessions)
  = Calendar.loadWeeklySchedule tz now currentWeekStart sessions
  /\ exists startDate endDate,
      CalendarView.queryRange tz currentWeekStart = Some (startDate, endDate)
      /\ hd_error (map JSDate.toISODate week) = Some startDate
      /\ last (map JSDate.toISODate week) startDate = endDate
      /\ Forall (fun date =>
                   JSDate.parseDateOnly startDate
                   <= JSDate.parseDateOnly (JSDate.toISODate date)
                   <= JSDate.parseDateOnly endDate) week.
Proof.
  cbv zeta. split.
  - unfold Calendar.loadWeeklySchedule, Calendar.deriveWeek.
    assert (Heq : Calendar.weeklySchedule tz now
                    (Calendar.getWeekDates tz currentWeekStart)
                    (filter (fun s =>
                               existsb (fun date =>
                                          Calendar.onDate (JSDate.toISODate date) s)
                                       (Calendar.getWeekDates tz currentWeekStart))
                            sessions)
                  = Calendar.weeklySchedule tz now
                      (Calendar.getWeekDates tz currentWeekStart) sessions).
    { unfold Calendar.weeklySchedule. rewrite !forEachDate_spec. cbn [app].
      apply map_ext_in. intros [d i] Hin. apply in_combine_l in Hin. cbn [fst snd].
      unfold Calendar.workoutOfDay. rewrite find_filter; [reflexivity|].
      intros s Hs. apply existsb_exists. exists d. auto. }
    now rewrite Heq.
  - unfold CalendarView.queryRange. cbv zeta.
    rewrite getWeekDates_closed. cbn [map nth_error hd_error last].
    eexists. eexists. split; [reflexivity|].
    split; [reflexivity|]. split; [reflexivity|].
    repeat constructor; rewrite !parseDateOnly_toISODate, !Day_add_days;
      unfold JSDate.msPerDay; lia.
Qed.

(** ** Today on the dashboard *)

(** X17. On the dashboard, while the zone keeps its offset from 6 days
    before today to 6 days after and [now] is within the UTC day of [today]
    and past its midnight, a day of this week with a scheduled session is
    flagged missed exactly when it is not after today: today's session is
    flagged missed too, whatever its scheduled time. *)
Theorem X17_dashboard_missed_up_to_today tz offset lo hi now tpls today sessions i date s :
  JSDate.steady tz offset lo hi ->
  lo <= today - 6 * JSDate.msPerDay ->
  today + 6 * JSDate.msPerDay <= hi ->
  JSDate.Day today * JSDate.msPerDay < now ->
  now < (JSDate.Day today + 1) * JSDate.msPerDay ->
  nth_error (Dashboard.weekDatesOf tz today) i = Some date ->
  find (Dashboard.onDate (JSDate.toISODate date)) sessions = Some s ->
  TrainingSession.status s = "scheduled" ->
  date = today + (Spec.mondayOffset (JSDate.getDay tz today) + Z.of_nat i)
                 * JSDate.msPerDay
  /\ Dashboard.missed (Dashboard.workoutOfDay tz now tpls sessions date i)
     = (Z.of_nat i <=? - Spec.mondayOffset (JSDate.getDay tz today)).
Proof.
  intros Hs Hwlo Hwhi Hlo Hhi Hnth Hfind Hst.
  assert (Hdate : date = today + (Spec.mondayOffset (JSDate.getDay tz today) + Z.of_nat i)
                                 * JSDate.msPerDay).
  { change (Dashboard.weekDatesOf tz today) with (Calendar.getWeekDates tz today) in Hnth.
    rewrite (getWeekDates_steady tz offset lo hi) in Hnth by assumption.
    do 7 (destruct i as [|i]; [cbn in Hnth; injection Hnth as <-; reflexivity|]).
    destruct i; discriminate. }
  split; [exact Hdate|].
  destruct (dashboard_matched_day tz now tpls _ _ i _ Hfind)
    as (_ & _ & _ & _ & _ & _ & ->).
  rewrite Hst. cbn [String.eqb Ascii.eqb Bool.eqb orb]. rewrite andb_true_r.
  rewrite parseDateOnly_toISODate, Hdate, Day_add_days.
  unfold JSDate.msPerDay in *.
  destruct (Z.ltb_spec
              ((JSDate.Day today
                + (Spec.mondayOffset (JSDate.getDay tz today) + Z.of_nat i)) * 86400000)
              now);
    destruct (Z.leb_spec (Z.of_nat i) (- Spec.mondayOffset (JSDate.getDay tz today)));
    try reflexivity; lia.
Qed.

Lemma X17_dashboard_missed_up_to_today_witness :
  Samples.wednesday = Samples.wednesday + (-2 + 2) * JSDate.msPerDay
  /\ Dashboard.missed
       (Dashboard.workoutOfDay Samples.newYork Samples.noon []
          [Samples.sessionWith "scheduled"] Samples.wednesday 2) = true.
Proof.
  exact (X17_dashboard_missed_up_to_today Samples.newYork (-18000000)
           (Samples.wednesday - 6 * JSDate.msPerDay)
           (Samples.wednesday + 6 * JSDate.msPerDay)
           Samples.noon [] Samples.wednesday
           [Samples.sessionWith "scheduled"] 2%nat Samples.wednesday
           (Samples.sessionWith "scheduled")
           (steady_newYork_winter (Samples.wednesday - 6 * JSDate.msPerDay)
              (Samples.wednesday + 6 * JSDate.msPerDay) eq_refl)
           (Z.le_refl _) (Z.le_refl _)
           eq_refl eq_refl eq_refl eq_refl eq_refl).
Defined.

(** Across a transition a day after today can be flagged: in New York, at
    19:30 of Saturday 2024-03-09, the entry of Sunday the 10th has the date
    string of today, the UTC date 2024-03-10, and its scheduled session is
    flagged missed, on Saturday's entry and on Sunday's. *)
Example tomorrow_flagged_across_a_transition :
  map Dashboard.missed
      (Dashboard.loadWeeklyWorkouts Samples.newYork Samples.marchSaturday []
         Samples.marchSaturday Samples.marchSessions)
  = [false; false; false; false; false; true; true].
Proof. vm_compute. reflexivity. Qed.

(** ** The day number on the dashboard *)

Lemma dayNumberText_two_characters n :
  1 <= n <= 31 ->
  padStart 2 "0"%char (toString n)
  = (if n <? 10 then String "0"%char (toString n) else toString n)
  /\ String.length (padStart 2 "0"%char (toString n)) = 2%nat.
Proof.
  intros Hn. destruct n as [|p|p]; try lia.
  do 5 (destruct p as [p|p|]; try lia; try (split; reflexivity)).
Qed.

(** X18. The day number the dashboard prints under a day of the derived
    week always has two characters: the day of the month, 1 to 31, with a
    leading zero below 10. *)
Theorem X18_dayNumberText tz now tpls weekDates sessions :
  Forall (fun w =>
            1 <= Dashboard.dayNumber w <= 31
            /\ DashboardView.dayNumberText w
               = (if Dashboard.dayNumber w <? 10
                  then String "0"%char (toString (Dashboard.dayNumber w))
                  else toString (Dashboard.dayNumber w))
            /\ String.length (DashboardView.dayNumberText w) = 2%nat)
         (Dashboard.weeklyData tz now tpls weekDates sessions).
Proof.
  apply Forall_weeklyData. intros d i.
  destruct (dashboard_day_label tz now tpls sessions d i) as (_ & Hn & _).
  unfold DashboardView.dayNumberText. rewrite Hn.
  pose proof (DateFromTime_range (JSDate.LocalTime tz d)) as Hr.
  fold (JSDate.getDate tz d) in Hr.
  split; [exact Hr|]. now apply dayNumberText_two_characters.
Qed.

(** ** The derived week as time passes *)

Lemma Forall2_map_same {A B C : Type} (R : B -> C -> Prop)
      (f : A -> B) (g : A -> C) (l : list A) :
  (forall x, R (f x) (g x)) -> Forall2 R (map f l) (map g l).
Proof.
  intros H. induction l; cbn; constructor; auto.
Qed.

Lemma weeklySchedule_two_clocks tz now now' week ss
      (R : Calendar.WeeklyWorkout -> Calendar.WeeklyWorkout -> Prop) :
  (forall d i, R (Calendar.workoutOfDay tz now ss d i)
                 (Calendar.workoutOfDay tz now' ss d i)) ->
  Forall2 R (Calendar.weeklySchedule tz now week ss)
            (Calendar.weeklySchedule tz now' week ss).
Proof.
  intros H. unfold Calendar.weeklySchedule. rewrite !forEachDate_spec. cbn [app].
  apply Forall2_map_same. intros [d i]. apply H.
Qed.

Lemma calculateWeeklyStats_ext l l' :
  Forall2 (fun w w' =>
             Calendar.countsAsWorkout w = Calendar.countsAsWorkout w'
             /\ Calendar.isCompleted w = Calendar.isCompleted w'
             /\ Calendar.durationOrZero w = Calendar.durationOrZero w') l l' ->
  Calendar.calculateWeeklyStats l = Calendar.calculateWeeklyStats l'.
Proof.
  intros H.
  assert (Hlen : List.length (filter Calendar.countsAsWorkout l)
                 = List.length (filter Calendar.countsAsWorkout l')
                 /\ List.length (filter Calendar.isCompleted l)
                    = List.length (filter Calendar.isCompleted l')
                 /\ forall acc,
                      fold_left (fun sum w => sum + Calendar.durationOrZero w)
                                (filter Calendar.isCompleted l) acc
                      = fold_left (fun sum w => sum + Calendar.durationOrZero w)
                                  (filter Calendar.isCompleted l') acc).
  { induction H as [|w w' l l' (Hw & Hd & Hm) _ (IH1 & IH2 & IH3)];
      [repeat split|].
    cbn [filter]. rewrite Hw, Hd.
    destruct (Calendar.countsAsWorkout w'), (Calendar.isCompleted w');
      cbn [List.length fold_left]; rewrite ?IH1, ?IH2, ?Hm;
      repeat split; auto. }
  destruct Hlen as (H1 & H2 & H3).
  unfold Calendar.calculateWeeklyStats. cbv zeta. now rewrite H1, H2, H3.
Qed.

(** X19. The weekly statistics do not depend on the clock: whatever the
    time at which the week is derived, the same week and sessions give the
    same [totalWorkouts], [completedWorkouts], [totalDuration] and
    [completionRate] - a scheduled session counts the same once it turns
    missed. *)
Theorem X19_statistics_ignore_the_clock tz now now' weekDates sessions :
  snd (Calendar.deriveWeek tz now weekDates sessions)
  = snd (Calendar.deriveWeek tz now' weekDates sessions).
Proof.
  unfold Calendar.deriveWeek. cbn [snd]. apply calculateWeeklyStats_ext.
  apply weeklySchedule_two_clocks. intros d i.
  destruct (find (Calendar.onDate (JSDate.toISODate d)) sessions) as [s|] eqn:Hfind.
  - destruct (calendar_matched_day tz now _ _ i _ Hfind)
      as (_ & _ & Ht & _ & _ & _ & Hd & _ & _ & Hst).
    destruct (calendar_matched_day tz now' _ _ i _ Hfind)
      as (_ & _ & Ht' & _ & _ & _ & Hd' & _ & _ & Hst').
    cbv zeta in Hst, Hst'.
    unfold Calendar.countsAsWorkout, Calendar.isCompleted, Calendar.durationOrZero.
    rewrite Ht, Ht', Hd, Hd', Hst, Hst'.
    destruct (String.eqb_spec (TrainingSession.status s) "scheduled") as [E|E];
      [|repeat split; reflexivity].
    rewrite E. destruct (JSDate.lt _ now), (JSDate.lt _ now'); repeat split; reflexivity.
  - rewrite !(calendar_rest_day tz _ _ _ i Hfind). repeat split; reflexivity.
Qed.

(** X20. As time passes entries only go from scheduled to missed: deriving
    the same week and sessions at a later time gives, day by day, either
    the same entry or, for an entry that was [scheduled], that entry with
    status [missed]; on the dashboard, either the same entry or an entry
    whose [missed] flag has been set. *)
Theorem X20_later_clock tz now now' tpls weekDates sessions :
  now <= now' ->
  Forall2 (fun w w' =>
             w' = w
             \/ (Calendar.status w = "scheduled" /\ w' = Calendar.set_status w "missed"))
          (Calendar.weeklySchedule tz now weekDates sessions)
          (Calendar.weeklySchedule tz now' weekDates sessions)
  /\ Forall2 (fun w w' =>
                w' = w
                \/ (Dashboard.missed w = false
                    /\ w' = Dashboard.mkWorkout
                              (Dashboard.dayName w) (Dashboard.dayNumber w)
                              (Dashboard.template w) (Dashboard.completed w) true
                              (Dashboard.sessionId w) (Dashboard.scheduledTime w)))
             (Dashboard.weeklyData tz now tpls weekDates sessions)
             (Dashboard.weeklyData tz now' tpls weekDates sessions).
Proof.
  intros Hle. split.
  - apply weeklySchedule_two_clocks. intros d i. unfold Calendar.workoutOfDay.
    destruct (find (Calendar.onDate (JSDate.toISODate d)) sessions) as [s|];
      [|left; reflexivity].
    cbv zeta.
    destruct (String.eqb_spec (TrainingSession.status s) "scheduled") as [E|E];
      [|left; reflexivity].
    destruct (JSDate.parseDateTime tz _ _) as [t|]; cbn [JSDate.lt];
      [|left; reflexivity].
    destruct (Z.ltb_spec t now), (Z.ltb_spec t now'); try lia;
      [left; reflexivity| |left; reflexivity].
    right. split; [exact E|reflexivity].
  - unfold Dashboard.weeklyData. rewrite !mapDates_spec.
    apply Forall2_map_same. intros [d i]. cbn [fst snd].
    unfold Dashboard.workoutOfDay.
    destruct (find (Dashboard.onDate (JSDate.toISODate d)) sessions) as [s|];
      [|left; reflexivity].
    cbv zeta.
    destruct (String.eqb (TrainingSession.status s) "completed"); [left; reflexivity|].
    destruct (String.eqb (TrainingSession.status s) "no_show"
              || String.eqb (TrainingSession.status s) "cancelled");
      [left; reflexivity|].
    destruct (String.eqb (TrainingSession.status s) "scheduled");
      rewrite ?andb_false_r, ?andb_true_r; [|left; reflexivity].
    match goal with
    | |- context [?t <? now] =>
        destruct (Z.ltb_spec t now), (Z.ltb_spec t now'); try lia
    end; [left; reflexivity| |left; reflexivity].
    right. split; reflexivity.
Qed.

Lemma X20_later_clock_witness :
  Forall2 (fun w w' =>
             w' = w
             \/ (Calendar.status w = "scheduled" /\ w' = Calendar.set_status w "missed"))
          (Calendar.weeklySchedule 0 Samples.noon
             (Calendar.getWeekDates 0 Samples.wednesday)
             [Samples.sessionWith "scheduled"])
          (Calendar.weeklySchedule 0 (Samples.noon + JSDate.msPerDay)
             (Calendar.getWeekDates 0 Samples.wednesday)
             [Samples.sessionWith "scheduled"]).
Proof.
  refine (proj1 (X20_later_clock 0 Samples.noon (Samples.noon + JSDate.msPerDay) []
                   (Calendar.getWeekDates 0 Samples.wednesday)
                   [Samples.sessionWith "scheduled"] _)).
  discriminate.
Defined.
